(** * ns1-dynamic-dns: the reconciliation engine of [main.go]

    A shallow embedding of the part of [main.go] that decides, for one
    subdomain, whether its "A" record is left alone, created or updated
    ([checkIP], [processAnswer], [sliceFromInterface], [createRecord],
    [updateRecord], [processSubdomain], [fullSubdomain] and the subdomain
    loop of [main]), followed by the properties of the specification that
    concern it.

    Conventions of the embedding:
    - a Go [string] is a [string], a [[]string] is a [list string]; a nil
      slice and an empty slice are both the empty list (the code only takes
      [len] of them, ranges over them and compares them with
      [slices.Equal], none of which tells them apart);
    - a Go [interface{}] value is an [iface]: its dynamic type is the
      constructor, which is what the type assertions of
      [sliceFromInterface] test;
    - a function returning [(T, error)] returns a pair whose second
      component is an [option error], [None] being [nil];
    - a pointer that the code may find nil (the answers of a record,
      [answer.Meta], the answer [processSubdomain] builds, the addresses
      of a Linode instance) is an [option], [None] being nil, and reading
      through a nil pointer panics; what a library call hands back when it
      succeeds (the record of a lookup, the Linode instance, the HTTP
      response, the zone) and the clients the program has set up are not
      nil;
    - the effects of the engine (calls to the NS1 client, lines written
      with [log], [time.Sleep]) are recorded in order in a trace of
      [Event]s; a Go runtime panic ends the computation and keeps the trace
      written so far. *)

From Stdlib Require Import String Ascii List Bool Arith ZArith.
From Stdlib Require Import DecimalString Permutation.
Import ListNotations.
Local Open Scope list_scope.
Local Open Scope string_scope.

(** ** Values of the Go runtime *)

Set Warnings "-register-all".

(** A value held in an [interface{}], by dynamic type. [IFloat64] stands
    for a JSON number; only its dynamic type matters to the engine. *)
Inductive iface : Type :=
| INil
| IBool (b : bool)
| IString (s : string)
| IFloat64 (n : Z)
| IStrings (l : list string)
| ISlice (l : list iface)
| IMap (kv : list (string * iface)).

(** The [%T] verb of [fmt]. *)
Definition typeName (i : iface) : string :=
  match i with
  | INil => "<nil>"
  | IBool _ => "bool"
  | IString _ => "string"
  | IFloat64 _ => "float64"
  | IStrings _ => "[]string"
  | ISlice _ => "[]interface {}"
  | IMap _ => "map[string]interface {}"
  end.

(** The [%d] verb of [fmt] on a non-negative [int]. *)
Definition itoa (n : nat) : string := NilZero.string_of_uint (Nat.to_uint n).

(** A Go [error], by its message; [%w] and [%v] both print the message of
    the error they are given. *)
Definition error : Type := string.

(** The interface comparison [v != true]: [v] is anything but the boolean
    [true]. *)
Definition isTrue (v : iface) : bool :=
  match v with
  | IBool true => true
  | _ => false
  end.

Module slices.

(** [slices.Equal] of the Go standard library: same length and equal
    elements at every index. *)
Fixpoint Equal (s1 s2 : list string) : bool :=
  match s1, s2 with
  | [], [] => true
  | x :: s1', y :: s2' => String.eqb x y && Equal s1' s2'
  | _, _ => false
  end.

End slices.

(** ** The NS1 data model, as far as the engine reads and writes it *)

Module ns1data.

(** [data.Meta]: the two fields the engine touches. Both are
    [interface{}] in the library, which is why [processAnswer] converts
    [Country] with [sliceFromInterface]. *)
Record Meta : Type := { Up : iface; Country : iface }.

End ns1data.

Module ns1model.

(** [dns.Answer]; [Meta] is a pointer, [None] when nil. *)
Record Answer : Type := {
  Rdata : list string;
  Meta : option ns1data.Meta
}.

(** [dns.Record]; [Answers] is a slice of pointers. *)
Record Record_ : Type := {
  Zone : string;
  Domain : string;
  Type_ : string;
  Answers : list (option Answer)
}.

(** The assignment [record.Answers = answers]. *)
Definition setAnswers (record : Record_) (answers : list (option Answer))
  : Record_ :=
  {| Zone := Zone record; Domain := Domain record; Type_ := Type_ record;
     Answers := answers |}.

End ns1model.

Import ns1data ns1model.

Module ns1.

(** What [client.Records] answers. [Records_Get] yields the record or an
    error; the library's sentinel for a missing record is
    [ErrRecordMissing], anything else (transport, authentication, rate
    limit) is an [ErrOther]. [Records_Update] decodes the provider's reply
    into the record it was handed: it yields the record as the call
    leaves it, or an error. [Records_Create] does the same, into a record
    the program does not read again. *)
Inductive GetError : Type :=
| ErrRecordMissing
| ErrOther (msg : string).

Record Client : Type := {
  Records_Get : string -> string -> string -> Record_ + GetError;
  Records_Create : Record_ -> option error;
  Records_Update : Record_ -> Record_ + error
}.

End ns1.

(** ** Effects *)

(** One constructor per [log.Printf]/[log.Println] of the embedded
    functions, with the arguments of the call. *)
Inductive LogMsg : Type :=
| LogNoAnswers (myIP domain : string)
| LogNoRdata (myIP domain : string)
| LogIPMismatch (myIP domain remoteIP : string)
| LogIPMatches (myIP domain : string)
| LogUpdated (domain : string)
| LogCreated (subdomain newIP : string)
| LogConvertFailure (conversionErr : error)
| LogCountriesDiffer
| LogUpDiffers
| LogCreateFailed (domain : string) (recordCreateErr : error)
| LogWouldCreate (domain currentIP : string)
| LogCheckIPFailed (domain : string) (ipMatchErr : error)
| LogShouldUpdate
| LogUpdateFailed (domain : string) (updatedRecordErr : error)
| LogWouldUpdate (domain currentIP : string).


Inductive Event : Type :=
| EvGet (zone domain type : string)
| EvCreate (record : Record_)
| EvUpdate (record : Record_)
| EvLog (m : LogMsg)
| EvSleep (seconds : Z).

(** How a computation ends: it returns a value or the runtime panics. *)
Inductive Result (A : Type) : Type :=
| Ok (a : A)
| Panic (msg : string).

Arguments Ok {A} a.
Arguments Panic {A} msg.

(** A computation of the engine: how it ends and what it did. *)
Definition M (A : Type) : Type := Result A * list Event.

Definition ret {A : Type} (a : A) : M A := (Ok a, []).

Definition bind {A B : Type} (m : M A) (f : A -> M B) : M B :=
  match m with
  | (Ok a, t) => let (r, t') := f a in (r, (t ++ t')%list)
  | (Panic msg, t) => (Panic msg, t)
  end.

Definition emit (e : Event) : M unit := (Ok tt, [e]).

Definition panic {A : Type} (msg : string) : M A := (Panic msg, []).

Definition outcome {A : Type} (m : M A) : Result A := fst m.

Definition trace {A : Type} (m : M A) : list Event := snd m.

Declare Scope go_scope.
Delimit Scope go_scope with go.

Notation "x <- c1 ;; c2" := (bind c1 (fun x => c2))
  (at level 61, c1 at next level, right associativity) : go_scope.
Notation "' pat <- c1 ;; c2" := (bind c1 (fun x => match x with pat => c2 end))
  (at level 61, pat pattern, c1 at next level, right associativity) : go_scope.
Notation "c1 ;; c2" := (bind c1 (fun _ => c2))
  (at level 61, right associativity) : go_scope.

Local Open Scope go_scope.

Definition logf (m : LogMsg) : M unit := emit (EvLog m).

(** [s[i]] on a slice: the runtime panics when [i] is out of range. *)
Definition index {A : Type} (s : list A) (i : nat) : M A :=
  match nth_error s i with
  | Some a => ret a
  | None =>
      panic ("runtime error: index out of range [" ++ itoa i
               ++ "] with length " ++ itoa (List.length s))
  end.

(** [p.f] through a pointer: the runtime panics when [p] is nil. *)
Definition deref {A : Type} (p : option A) : M A :=
  match p with
  | Some a => ret a
  | None =>
      panic "runtime error: invalid memory address or nil pointer dereference"
  end.

(** The three calls on [client.Records], each leaving its mark in the
    trace. *)
Definition callGet (client : ns1.Client) (zone domain type : string)
  : M (Record_ + ns1.GetError) :=
  emit (EvGet zone domain type) ;; ret (ns1.Records_Get client zone domain type).

Definition callCreate (client : ns1.Client) (record : Record_)
  : M (option error) :=
  emit (EvCreate record) ;; ret (ns1.Records_Create client record).

Definition callUpdate (client : ns1.Client) (record : Record_)
  : M (Record_ + error) :=
  emit (EvUpdate record) ;; ret (ns1.Records_Update client record).

(** ** The engine *)

(** [checkIP]: whether the current IP matches the IP in DNS. *)
Definition checkIP (myIP : string) (record : Record_) : M (bool * option error) :=
  if Nat.eqb (List.length (Answers record)) 0 then
    logf (LogNoAnswers myIP (Domain record)) ;;
    ret (false, None)
  else
    answer0 <- index (Answers record) 0 ;;
    answer0 <- deref answer0 ;;
    if Nat.eqb (List.length (Rdata answer0)) 0 then
      logf (LogNoRdata myIP (Domain record)) ;;
      ret (false, None)
    else
      remoteIP <- index (Rdata answer0) 0 ;;
      if negb (String.eqb myIP remoteIP) then
        logf (LogIPMismatch myIP (Domain record) remoteIP) ;;
        ret (false, None)
      else
        logf (LogIPMatches myIP (Domain record)) ;;
        ret (true, None).

(** [updateRecord]: commit the answer as the record's only answer. The
    line it logs names the record as the update call left it. *)
Definition updateRecord (client : ns1.Client) (record : Record_)
    (answer : Answer) : M (option error) :=
  let record := setAnswers record [Some answer] in
  updated <- callUpdate client record ;;
  match updated with
  | inr updateErr => ret (Some ("failed to update record: " ++ updateErr))
  | inl record =>
      logf (LogUpdated (Domain record)) ;;
      ret None
  end.

(** The loop of [sliceFromInterface] from index [idx] on: the strings of
    the items, or the error of the first item that is not a string. *)
Fixpoint convertItems (idx : nat) (slice : list iface) : list string + error :=
  match slice with
  | [] => inl []
  | item :: rest =>
      match item with
      | IString str =>
          match convertItems (S idx) rest with
          | inl result => inl (str :: result)
          | inr e => inr e
          end
      | _ =>
          inr ("element at index " ++ itoa idx ++ " is not a string (type: "
                 ++ typeName item ++ ")")
      end
  end.

(** [sliceFromInterface]: an interface (the allowed countries) as a
    [[]string]. On failure the slice returned is empty. *)
Definition sliceFromInterface (i : iface) : list string * option error :=
  match i with
  | ISlice slice =>
      match convertItems 0 slice with
      | inl result => (result, None)
      | inr e => ([], Some e)
      end
  | _ => ([], Some "dunno how we got here")
  end.

(** [fullSubdomain]: the full domain name of a subdomain label. *)
Definition fullSubdomain (coreDomain subdomain : string) : string :=
  if String.eqb subdomain "@" then coreDomain
  else subdomain ++ "." ++ coreDomain.

(** [processAnswer]: whether the answer's metadata calls for an update, and
    the country list to write. The two variables of the Go function are
    threaded through the three tests. *)
Definition processAnswer (answer : Answer) (countries : list string)
  : M (bool * list string) :=
  match Meta answer with
  | None => ret (true, countries)
  | Some meta =>
      let '(countryMeta, conversionErr) := sliceFromInterface (Country meta) in
      '(shouldUpdate, countriesToUse) <-
        match conversionErr with
        | Some e => logf (LogConvertFailure e) ;; ret (true, countries)
        | None => ret (false, [])
        end ;;
      '(shouldUpdate, countriesToUse) <-
        (if negb (slices.Equal countryMeta countries) then
           logf LogCountriesDiffer ;; ret (true, countries)
         else ret (shouldUpdate, countriesToUse)) ;;
      '(shouldUpdate, countriesToUse) <-
        (if negb (isTrue (Up meta)) then
           logf LogUpDiffers ;; ret (true, countryMeta)
         else ret (shouldUpdate, countriesToUse)) ;;
      ret (shouldUpdate, countriesToUse)
  end.

(** The answer [processSubdomain] builds for an update. *)
Definition freshAnswer (currentIP : string) (countriesToUse : list string)
  : Answer :=
  {| Rdata := [currentIP];
     Meta := Some {| Up := IBool true; Country := IStrings countriesToUse |} |}.

(** The default of [main] for an empty [allowed_countries]. *)
Definition defaultAllowedCountries (allowedCountries : list string)
  : list string :=
  if Nat.eqb (List.length allowedCountries) 0 then ["US"; "CA"] else allowedCountries.

Section Engine.

(** [ns1model.NewRecord zone domain type] of the NS1 library, called with
    empty tags: the engine only relies on its result being a record, whose
    answers it then overwrites. *)
Variable NewRecord : string -> string -> string -> Record_.

(** [createRecord]: create a new "A" record. *)
Definition createRecord (client : ns1.Client)
    (zone subdomain newIP : string) (allowedCountries : list string)
  : M (option error) :=
  let data :=
    if Nat.ltb 0 (List.length allowedCountries) then
      {| Up := IBool true; Country := IStrings allowedCountries |}
    else
      {| Up := IBool true; Country := INil |} in
  let answer := {| Rdata := [newIP]; Meta := Some data |} in
  let record := setAnswers (NewRecord zone subdomain "A") [Some answer] in
  createErr <- callCreate client record ;;
  match createErr with
  | Some e => ret (Some ("failed to create record: " ++ e))
  | None =>
      logf (LogCreated subdomain newIP) ;;
      ret None
  end.

(** [processSubdomain]: load the record of a subdomain and create or update
    it as needed. [processAnswer] is handed the pointer [record.Answers[0]]
    and reads through it at once; the read is made here, at the call. *)
Definition processSubdomain (domain currentIP zone : string)
    (NS1Client : ns1.Client) (countries : list string) (test : bool)
  : M unit :=
  got <- callGet NS1Client zone domain "A" ;;
  match got with
  | inr recordCheckErr =>
      if negb test then
        recordCreateErr <-
          createRecord NS1Client zone domain currentIP countries ;;
        match recordCreateErr with
        | Some e => logf (LogCreateFailed domain e)
        | None => ret tt
        end
      else
        logf (LogWouldCreate domain currentIP)
  | inl record =>
      '(ipMatches, ipMatchErr) <- checkIP currentIP record ;;
      match ipMatchErr with
      | Some e => logf (LogCheckIPFailed domain e)
      | None =>
          answer0 <- index (Answers record) 0 ;;
          answer0 <- deref answer0 ;;
          '(shouldUpdate, countriesToUse) <- processAnswer answer0 countries ;;
          let '(updatedAnswer, shouldUpdate) :=
            if negb ipMatches || shouldUpdate then
              (Some (freshAnswer currentIP countriesToUse), true)
            else (None, shouldUpdate) in
          if shouldUpdate then
            logf LogShouldUpdate ;;
            if negb test then
              a <- deref updatedAnswer ;;
              let a :=
                if Nat.eqb (List.length (Rdata a)) 0 then
                  {| Rdata := [currentIP]; Meta := Meta a |}
                else a in
              updatedRecordErr <- updateRecord NS1Client record a ;;
              match updatedRecordErr with
              | Some e => logf (LogUpdateFailed domain e)
              | None => ret tt
              end
            else
              logf (LogWouldUpdate domain currentIP)
          else ret tt
      end
  end.

(** The innermost loop of [main]: every subdomain of a host in turn, with
    the delay after each. *)
Fixpoint processSubdomains (domain myIP zone : string)
    (NS1Client : ns1.Client) (allowedCountries : list string) (test : bool)
    (delay : Z) (subdomains : list string) : M unit :=
  match subdomains with
  | [] => ret tt
  | subdomain :: rest =>
      let fullDomain := fullSubdomain domain subdomain in
      processSubdomain fullDomain myIP zone NS1Client allowedCountries test ;;
      emit (EvSleep delay) ;;
      processSubdomains domain myIP zone NS1Client allowedCountries test
        delay rest
  end.

End Engine.

(** ** Observations on a run *)

(** The calls that change the provider's state. *)
Definition isMutating (e : Event) : bool :=
  match e with
  | EvCreate _ | EvUpdate _ => true
  | _ => false
  end.

Definition mutatingCalls (t : list Event) : list Event := filter isMutating t.

(** A log line that announces no write. *)
Definition isNote (e : Event) : bool :=
  match e with
  | EvLog (LogWouldCreate _ _) | EvLog (LogWouldUpdate _ _) => false
  | EvLog _ => true
  | _ => false
  end.


Definition isGet (e : Event) : bool :=
  match e with
  | EvGet _ _ _ => true
  | _ => false
  end.

(** What a run decided for its subdomain, read off its trace: a record was
    created or would have been, was updated or would have been, or nothing
    of the kind. *)
Inductive Decision : Type := NoOp | Create | Update.

Definition isCreate (e : Event) : bool :=
  match e with
  | EvCreate _ | EvLog (LogWouldCreate _ _) => true
  | _ => false
  end.

Definition isUpdate (e : Event) : bool :=
  match e with
  | EvUpdate _ | EvLog (LogWouldUpdate _ _) => true
  | _ => false
  end.

Definition decision (t : list Event) : Decision :=
  if existsb isCreate t then Create
  else if existsb isUpdate t then Update
  else NoOp.

(** ** The provider's copy of a written record *)

(** A value after a trip through JSON, where the embedding determines it:
    a [[]string] that is not empty comes back as a [[]interface{}] of
    strings, the other values keep their dynamic type. An empty
    [[]string] is left out: a nil one is written as null and read back as
    nil, an empty one is read back as an empty [[]interface{}], and the
    embedding does not tell them apart. *)
Fixpoint wireValue (i : iface) : option iface :=
  match i with
  | IStrings [] => None
  | IStrings l => Some (ISlice (map IString l))
  | ISlice l =>
      option_map ISlice
        ((fix items (l : list iface) : option (list iface) :=
            match l with
            | [] => Some []
            | x :: rest =>
                match wireValue x, items rest with
                | Some x', Some rest' => Some (x' :: rest')
                | _, _ => None
                end
            end) l)
  | IMap kv =>
      option_map IMap
        ((fix entries (kv : list (string * iface))
            : option (list (string * iface)) :=
            match kv with
            | [] => Some []
            | (key, x) :: rest =>
                match wireValue x, entries rest with
                | Some x', Some rest' => Some ((key, x') :: rest')
                | _, _ => None
                end
            end) kv)
  | v => Some v
  end.

Definition wireMeta (m : ns1data.Meta) : option ns1data.Meta :=
  match wireValue (Up m), wireValue (Country m) with
  | Some up, Some country => Some {| Up := up; Country := country |}
  | _, _ => None
  end.

Definition wireAnswer (a : option Answer) : option (option Answer) :=
  match a with
  | None => Some None
  | Some a =>
      match Meta a with
      | None => Some (Some {| Rdata := Rdata a; Meta := None |})
      | Some m =>
          match wireMeta m with
          | Some m' => Some (Some {| Rdata := Rdata a; Meta := Some m' |})
          | None => None
          end
      end
  end.

Fixpoint wireAnswers (l : list (option Answer))
  : option (list (option Answer)) :=
  match l with
  | [] => Some []
  | a :: rest =>
      match wireAnswer a, wireAnswers rest with
      | Some a', Some rest' => Some (a' :: rest')
      | _, _ => None
      end
  end.

(** What a later [Records.Get] hands back for a record the engine wrote,
    while nobody else touches it: the same record, its metadata decoded
    from JSON. *)
Definition stored (r : Record_) : option Record_ :=
  option_map (setAnswers r) (wireAnswers (Answers r)).

(** A client for a run that finds [r] and whose writes succeed. *)
Definition clientFinding (r : Record_) : ns1.Client :=
  {| ns1.Records_Get := fun _ _ _ => inl r;
     ns1.Records_Create := fun _ => None;
     ns1.Records_Update := fun written => inl written |}.

(** A client for a run whose lookup fails with [e] and whose writes
    succeed. *)
Definition clientFailing (e : ns1.GetError) : ns1.Client :=
  {| ns1.Records_Get := fun _ _ _ => inr e;
     ns1.Records_Create := fun _ => None;
     ns1.Records_Update := fun written => inl written |}.

(** [NewRecord] as a plain constructor, for concrete runs. *)
Definition plainRecord (zone domain type : string) : Record_ :=
  {| Zone := zone; Domain := domain; Type_ := type; Answers := [] |}.

(** The message of the panic on reading through a nil pointer. *)
Definition nilDereference : string :=
  "runtime error: invalid memory address or nil pointer dereference".

(** A record of zone example.com for the name home.example.com, with the
    given answers, none of them nil. *)
Definition homeRecord (answers : list Answer) : Record_ :=
  {| Zone := "example.com"; Domain := "home.example.com"; Type_ := "A";
     Answers := map Some answers |}.

(** An answer for 203.0.113.5 with the given metadata. *)
Definition homeAnswer (up country : iface) : Answer :=
  {| Rdata := ["203.0.113.5"];
     Meta := Some {| Up := up; Country := country |} |}.

(** The run of the engine for home.example.com at 203.0.113.5. *)
Definition homeRun (client : ns1.Client) (countries : list string)
    (test : bool) : M unit :=
  processSubdomain plainRecord "home.example.com" "203.0.113.5" "example.com"
    client countries test.

(** ** The rest of [main.go]: resolving a host's IP and the loops of [main]

    The part of the program around the engine: the two ways of finding a
    host's public IP ([linodeAPICheck], [externalWAN], chosen by
    [getIP]), the set-up of the two clients ([configureNS1Client],
    [configureLinodeClient]) and the loops of [main] over domains, hosts
    and subdomains. [getConfig] and [loadConfig] (reading and parsing the
    YAML file) are left out: the run starts from the parsed [Config].

    Further conventions:
    - what lies outside the program is a [World]: the random source, the
      IP-echo services, the two client libraries and the library functions
      applied to data that comes from outside. A remote service answers a
      given question the same way throughout a run; the random source need
      not, so a run carries the number of draws made so far;
    - a run in this outer layer leaves a trace of [MainEvent]s, the events
      of the engine among them. *)

(** The [%d] verb of [fmt] on an [int]. *)
Definition itoaZ (z : Z) : string := NilZero.string_of_int (Z.to_int z).

Module linodego.

(** [linodego.Instance]: its IPv4 addresses, a slice of pointers, each
    address as [net.IP.String] prints it. *)
Record Instance : Type := { IPv4 : list (option string) }.

(** [linodego.Client]: the one call the program makes. *)
Record Client : Type := { GetInstance : Z -> Instance + error }.

End linodego.

Module http.

(** [http.Response]: the status code and the body. *)
Record Response : Type := { StatusCode : Z; Body : string }.

Definition StatusOK : Z := 200.

End http.

Module ns1zone.

(** [dns.Zone]: the one field [main] reads. *)
Record Zone_ : Type := { Zone : string }.

End ns1zone.

Module ns1rest.

(** The whole [*ns1.Client]: its [Records] service, which is what the
    engine is handed, and [Zones.Get]. *)
Record Client : Type := {
  Records : ns1.Client;
  Zones_Get : string -> bool -> ns1zone.Zone_ + error
}.

End ns1rest.

Module NS1Config.

(** [NS1Config]; [Client] is a pointer, nil until configured. *)
Record t : Type := {
  APIKey : string;
  Client : option ns1rest.Client
}.

End NS1Config.

(** [Host]: one host of the configuration. *)
Record Host : Type := {
  Name : string;
  Method : string;
  APIKey : string;
  HostKey : string;
  Subdomains : list string;
  Client : linodego.Client
}.

(** [DomainConfig]: the configuration of one domain. *)
Record DomainConfig : Type := {
  Test : bool;
  Debug : bool;
  Timeout : Z;
  Delay : Z;
  AllowedCountries : list string;
  Hosts : list Host;
  NS1 : NS1Config.t
}.

(** [Config], a Go map, as the pairs [range] visits, in the order it
    visits them. *)
Definition Config : Type := list (string * DomainConfig).

(** What the program relies on from outside. *)
Record World : Type := {
  (** the k-th draw of [math/rand], before it is brought into range *)
  draw : nat -> nat;
  (** [client.Get url] of an [http.Client] with the given timeout in
      seconds *)
  http_Get : string -> Z -> http.Response + error;
  (** [json.NewDecoder(body).Decode] into an [IPCheckResponse]: its [IP]
      field *)
  decodeIP : string -> string + error;
  (** [strings.TrimSpace] *)
  TrimSpace : string -> string;
  (** [strconv.Atoi] *)
  Atoi : string -> Z * option error;
  (** [ns1.NewClient] over an HTTP client with the given API key, timeout
      in seconds and logging flag *)
  ns1_NewClient : string -> Z -> bool -> ns1rest.Client;
  (** [linodego.NewClient] over an OAuth2 HTTP client with the given
      token and timeout in seconds, then [SetDebug] *)
  linodego_NewClient : string -> Z -> bool -> linodego.Client
}.

(** The host of one of the URLs of [externalWAN], as [url.Parse] finds it:
    what follows the scheme up to the first slash or question mark. On
    these URLs [url.String] gives the text back unchanged. *)
Fixpoint untilPathOrQuery (s : string) : string :=
  match s with
  | EmptyString => EmptyString
  | String c rest =>
      if (Ascii.eqb c "/"%char || Ascii.eqb c "?"%char)%bool then EmptyString
      else String c (untilPathOrQuery rest)
  end.

Definition urlHost (rawurl : string) : string :=
  untilPathOrQuery (substring 8 (String.length rawurl - 8) rawurl).

(** The lines [log] writes outside the engine. *)
Inductive MainLog : Type :=
| LogCheckingLinode
| LogCheckingExternal (host : string)
| LogProcessingDomain (domain : string)
| LogZoneFailed (domain : string) (zoneCheckErr : error)
| LogZone (zone : string)
| LogCheckingHost (name : string)
| LogIPFailed (name : string) (ipCheckErr : error)
| LogCompleted.

Definition renderMain (m : MainLog) : string :=
  match m with
  | LogCheckingLinode => "Checking against: Linode API"
  | LogCheckingExternal host => "Checking against: " ++ host
  | LogProcessingDomain domain => "Processing domain: " ++ domain
  | LogZoneFailed domain e => "Failed to load zone " ++ domain ++ ": " ++ e
  | LogZone zone => "Zone: " ++ zone
  | LogCheckingHost name => "Checking subdomains for host: " ++ name
  | LogIPFailed name e => "Failed to get IP for host " ++ name ++ ": " ++ e
  | LogCompleted => "DNS update completed"
  end.

Inductive MainEvent : Type :=
| EvEngine (e : Event)
| EvMainLog (m : MainLog)
| EvStdout (line : string)
| EvZonesGet (domain : string) (records : bool)
| EvGetInstance (hostID : Z)
| EvHttpGet (url : string) (timeout : Z).

(** A computation of the outer layer: from the number of random draws made
    so far to how it ends, what it did and the number of draws after. *)
Definition W (A : Type) : Type := nat -> Result A * list MainEvent * nat.

Definition retW {A : Type} (a : A) : W A := fun k => (Ok a, [], k).

Definition bindW {A B : Type} (m : W A) (f : A -> W B) : W B :=
  fun k =>
    match m k with
    | (Ok a, t, k') =>
        match f a k' with
        | (r, t', k'') => (r, (t ++ t')%list, k'')
        end
    | (Panic msg, t, k') => (Panic msg, t, k')
    end.

Definition emitW (e : MainEvent) : W unit := fun k => (Ok tt, [e], k).

(** A computation of the engine, run inside the outer layer. *)
Definition liftM {A : Type} (m : M A) : W A :=
  fun k => (outcome m, map EvEngine (trace m), k).

Definition outcomeW {A : Type} (r : Result A * list MainEvent * nat)
  : Result A := fst (fst r).

Definition traceW {A : Type} (r : Result A * list MainEvent * nat)
  : list MainEvent := snd (fst r).

Declare Scope run_scope.
Delimit Scope run_scope with run.

Notation "x <- c1 ;; c2" := (bindW c1 (fun x => c2))
  (at level 61, c1 at next level, right associativity) : run_scope.
Notation "' pat <- c1 ;; c2" := (bindW c1 (fun x => match x with pat => c2 end))
  (at level 61, pat pattern, c1 at next level, right associativity) : run_scope.
Notation "c1 ;; c2" := (bindW c1 (fun _ => c2))
  (at level 61, right associativity) : run_scope.

Definition logW (m : MainLog) : W unit := emitW (EvMainLog m).

(** [fmt.Println(line)]. *)
Definition Println (line : string) : W unit := emitW (EvStdout line).

Definition indexW {A : Type} (s : list A) (i : nat) : W A := liftM (index s i).

Definition derefW {A : Type} (p : option A) : W A := liftM (deref p).

(** The URLs [externalWAN] chooses from. *)
Definition resources : list string :=
  ["https://api.ipify.org?format=json";
   "https://ipinfo.io/json";
   "https://ifconfig.co/json"].

Section Main.

Variable NewRecord : string -> string -> string -> Record_.
Variable world : World.

Local Open Scope run_scope.

(** [rand.Intn n], for a positive [n]. *)
Definition Intn (n : nat) : W nat :=
  fun k => (Ok (Nat.modulo (draw world k) n), [], S k).

(** [configureNS1Client]: the NS1 client of a domain. *)
Definition configureNS1Client (n : NS1Config.t) (timeout : Z) (debug : bool)
  : NS1Config.t :=
  let timeout := if Z.ltb timeout 1 then 30%Z else timeout in
  {| NS1Config.APIKey := NS1Config.APIKey n;
     NS1Config.Client :=
       Some (ns1_NewClient world (NS1Config.APIKey n) timeout debug) |}.

(** [configureLinodeClient]: the Linode client of a host. *)
Definition configureLinodeClient (h : Host) (timeout : Z) (debug : bool)
  : Host :=
  let timeout := if Z.ltb timeout 1 then 30%Z else timeout in
  {| Name := Name h; Method := Method h; APIKey := APIKey h;
     HostKey := HostKey h; Subdomains := Subdomains h;
     Client := linodego_NewClient world (APIKey h) timeout debug |}.

(** [linodeAPICheck]: the public IP from the Linode API, the first one if
    there are several. *)
Definition linodeAPICheck (h : Host) : W (string * option error) :=
  logW LogCheckingLinode ;;
  let hostID := fst (Atoi world (HostKey h)) in
  emitW (EvGetInstance hostID) ;;
  match linodego.GetInstance (Client h) hostID with
  | inr instanceErr =>
      retW ("", Some ("linode API returned error " ++ instanceErr))
  | inl res =>
      let ips := linodego.IPv4 res in
      if Nat.ltb (List.length ips) 1 then
        retW ("", Some "no IPv4 addresses on host")
      else
        ip0 <- indexW ips 0 ;;
        ip0 <- derefW ip0 ;;
        retW (ip0, None)
  end.

(** [externalWAN]: the public IP from a randomly chosen external
    service. *)
Definition externalWAN (timeout : Z) : W (string * option error) :=
  thePick <- Intn (List.length resources) ;;
  url <- indexW resources thePick ;;
  logW (LogCheckingExternal (urlHost url)) ;;
  emitW (EvHttpGet url timeout) ;;
  match http_Get world url timeout with
  | inr ipCheckErr =>
      retW ("", Some ("failed to get external IP: " ++ ipCheckErr))
  | inl resp =>
      if negb (Z.eqb (http.StatusCode resp) http.StatusOK) then
        retW ("", Some ("external service returned status: "
                          ++ itoaZ (http.StatusCode resp)))
      else
        match decodeIP world (http.Body resp) with
        | inr decoderErr =>
            retW ("", Some ("failed to decode response: " ++ decoderErr))
        | inl ip => retW (TrimSpace world ip, None)
        end
  end.

(** [getIP]: the IP by the host's configured method. *)
Definition getIP (host : Host) (timeout : Z) : W (string * option error) :=
  if String.eqb (Method host) "LinodeAPI" then linodeAPICheck host
  else if String.eqb (Method host) "external" then externalWAN timeout
  else retW ("", Some ("unknown method: " ++ Method host)).

(** The body of the loop of [main] over the hosts of a domain; the loop
    over the host's subdomains is [processSubdomains]. *)
Definition processHost (domain : string) (dConf : DomainConfig)
    (zone : ns1zone.Zone_) (client : ns1rest.Client)
    (allowedCountries : list string) (host : Host) : W unit :=
  logW (LogCheckingHost (Name host)) ;;
  let host :=
    if String.eqb (Method host) "LinodeAPI" then
      configureLinodeClient host (Timeout dConf) (Debug dConf)
    else host in
  '(myIP, ipCheckErr) <- getIP host (Timeout dConf) ;;
  match ipCheckErr with
  | Some e => logW (LogIPFailed (Name host) e)
  | None =>
      liftM (processSubdomains NewRecord domain myIP (ns1zone.Zone zone)
               (ns1rest.Records client) allowedCountries (Test dConf)
               (Delay dConf) (Subdomains host)) ;;
      Println ""
  end.

Fixpoint hostLoop (domain : string) (dConf : DomainConfig)
    (zone : ns1zone.Zone_) (client : ns1rest.Client)
    (allowedCountries : list string) (hosts : list Host) : W unit :=
  match hosts with
  | [] => retW tt
  | host :: rest =>
      processHost domain dConf zone client allowedCountries host ;;
      hostLoop domain dConf zone client allowedCountries rest
  end.

(** The body of the loop of [main] over the domains. *)
Definition processDomain (domain : string) (dConf : DomainConfig) : W unit :=
  logW (LogProcessingDomain domain) ;;
  let ns1cfg := configureNS1Client (NS1 dConf) (Timeout dConf) (Debug dConf) in
  let allowedCountries := defaultAllowedCountries (AllowedCountries dConf) in
  client <- derefW (NS1Config.Client ns1cfg) ;;
  emitW (EvZonesGet domain true) ;;
  match ns1rest.Zones_Get client domain true with
  | inr zoneCheckErr => logW (LogZoneFailed domain zoneCheckErr)
  | inl zone =>
      logW (LogZone (ns1zone.Zone zone)) ;;
      hostLoop domain dConf zone client allowedCountries (Hosts dConf) ;;
      Println ""
  end.

Fixpoint domainLoop (config : Config) : W unit :=
  match config with
  | [] => retW tt
  | (domain, dConf) :: rest =>
      processDomain domain dConf ;;
      domainLoop rest
  end.

(** [main], from the parsed configuration on. *)
Definition mainRun (config : Config) : W unit :=
  domainLoop config ;;
  logW LogCompleted ;;
  Println "".

End Main.

(** The host as [processHost] hands it to [getIP]: with its Linode client
    set up when its method is LinodeAPI. *)
Definition configuredHost (world : World) (dConf : DomainConfig)
    (host : Host) : Host :=
  if String.eqb (Method host) "LinodeAPI" then
    configureLinodeClient world host (Timeout dConf) (Debug dConf)
  else host.

(** [ip] is an address [getIP] resolves for the host of a domain, without
    error, at some count of random draws. *)
Definition resolves (world : World) (dConf : DomainConfig) (host : Host)
    (ip : string) : Prop :=
  exists k t k',
    getIP world (configuredHost world dConf host) (Timeout dConf) k
    = (Ok (ip, None), t, k').

(** Whether an event of the outer layer is a write to the provider. *)
Definition isWrite (e : MainEvent) : bool :=
  match e with
  | EvEngine e' => isMutating e'
  | _ => false
  end.

(** Whether an event of the outer layer is a call to a remote service. *)
Definition isRemote (e : MainEvent) : bool :=
  match e with
  | EvEngine (EvGet _ _ _) | EvEngine (EvCreate _) | EvEngine (EvUpdate _)
  | EvZonesGet _ _ | EvGetInstance _ | EvHttpGet _ _ => true
  | _ => false
  end.

(** The lines [checkIP] and [processAnswer] write. *)
Definition isDiagnostic (e : Event) : bool :=
  match e with
  | EvLog (LogNoAnswers _ _) | EvLog (LogNoRdata _ _)
  | EvLog (LogIPMismatch _ _ _) | EvLog (LogIPMatches _ _)
  | EvLog (LogConvertFailure _) | EvLog LogCountriesDiffer
  | EvLog LogUpDiffers => true
  | _ => false
  end.

Definition isSleep (e : Event) : bool :=
  match e with
  | EvSleep _ => true
  | _ => false
  end.

Definition isEngine (e : MainEvent) : bool :=
  match e with
  | EvEngine _ => true
  | _ => false
  end.

(** A client whose lookup answers [got] and whose writes fail with [e]. *)
Definition clientRefusing (got : Record_ + ns1.GetError) (e : error)
  : ns1.Client :=
  {| ns1.Records_Get := fun _ _ _ => got;
     ns1.Records_Create := fun _ => Some e;
     ns1.Records_Update := fun _ => inr e |}.

(** An NS1 client that knows every zone by its own name and has the given
    [Records] service. *)
Definition serviceOver (records : ns1.Client) : ns1rest.Client :=
  {| ns1rest.Records := records;
     ns1rest.Zones_Get := fun domain _ => inl {| ns1zone.Zone := domain |} |}.

(** A world to run examples in: the echo services answer [resp], the
    Linode API knows one instance with the addresses [ips], NS1 is
    [service]. The library functions on outside data are stand-ins. *)
Definition exampleWorld (resp : http.Response + error) (ips : list string)
    (service : ns1rest.Client) : World :=
  {| draw := fun k => k + 4;
     http_Get := fun _ _ => resp;
     decodeIP := fun body => inl body;
     TrimSpace := fun s => s;
     Atoi := fun _ => (42%Z, None);
     ns1_NewClient := fun _ _ _ => service;
     linodego_NewClient :=
       fun _ _ _ =>
         {| linodego.GetInstance :=
              fun _ => inl {| linodego.IPv4 := map Some ips |} |}
  |}.

(** A host named box with the given method, for the apex and www. *)
Definition exampleHost (method : string) : Host :=
  {| Name := "box"; Method := method; APIKey := "token"; HostKey := "42";
     Subdomains := ["@"; "www"];
     Client := {| linodego.GetInstance := fun _ => inr "no client" |} |}.

(** The configuration of example.com with the given hosts. *)
Definition exampleDomain (test : bool) (countries : list string)
    (hosts : list Host) : DomainConfig :=
  {| Test := test; Debug := false; Timeout := 0; Delay := 2;
     AllowedCountries := countries; Hosts := hosts;
     NS1 := {| NS1Config.APIKey := "key"; NS1Config.Client := None |} |}.

(** What the loops keep: a panic can only be the one on the index or the
    one on a nil pointer, and the closing line is not written inside
    them. *)
Definition loopInvariant {A : Type} (r : Result A * list MainEvent * nat)
  : Prop :=
  (forall msg, outcomeW r = Panic msg ->
     msg = "runtime error: index out of range [0] with length 0"
     \/ msg = nilDereference)
  /\ ~ In (EvMainLog LogCompleted) (traceW r).

(** An NS1 client none of whose zones can be loaded. *)
Definition serviceWithoutZones (e : error) : ns1rest.Client :=
  {| ns1rest.Records := clientFailing ns1.ErrRecordMissing;
     ns1rest.Zones_Get := fun _ _ => inr e |}.

(** An echo service answering 203.0.113.5. *)
Definition okResponse : http.Response + error :=
  inl {| http.StatusCode := 200; http.Body := "203.0.113.5" |}.

(** A world in which NS1 has no record yet. *)
Definition freshWorld : World :=
  exampleWorld okResponse [] (serviceOver (clientFailing ns1.ErrRecordMissing)).

(** A world in which NS1 has, for every name, a record already in order
    for 203.0.113.5 and the countries US and CA, and the Linode instance
    has that address. *)
Definition settledWorld : World :=
  exampleWorld okResponse ["203.0.113.5"]
    (serviceOver
       (clientFinding
          (homeRecord
             [homeAnswer (IBool true)
                (ISlice [IString "US"; IString "CA"])]))).

(** A configuration of example.com with one host resolved through the
    Linode API and one through the external services. *)
Definition linodeConfig : Config :=
  [("example.com",
    exampleDomain false [] [exampleHost "LinodeAPI"; exampleHost "external"])].

(** A configuration of example.com with two hosts, one resolved through
    the external services and one with a method that does not exist. *)
Definition exampleConfig (test : bool) : Config :=
  [("example.com",
    exampleDomain test [] [exampleHost "external"; exampleHost "dns"])].

(** ** Auxiliary facts *)

Section Facts.

Variable NewRecord : string -> string -> string -> Record_.

Lemma bind_Ok {A B : Type} (a : A) (t : list Event) (f : A -> M B) :
  bind (Ok a, t) f = (fst (f a), (t ++ snd (f a))%list).
Proof. unfold bind. destruct (f a); reflexivity. Qed.

Lemma bind_Panic {A B : Type} (msg : string) (t : list Event) (f : A -> M B) :
  bind (Panic msg, t) f = (Panic msg, t).
Proof. reflexivity. Qed.

Lemma Equal_spec (s1 s2 : list string) : slices.Equal s1 s2 = true <-> s1 = s2.
Proof.
  revert s2; induction s1 as [|x s1 IH]; intros [|y s2]; simpl;
    try (split; [discriminate | discriminate]); [tauto|].
  rewrite andb_true_iff, String.eqb_eq, IH.
  split; [intros [-> ->]; reflexivity | intros E; inversion E; auto].
Qed.

(** What [main] passes on as the allowed countries is never empty. *)
Lemma defaultAllowedCountries_nonempty (allowedCountries : list string) :
  defaultAllowedCountries allowedCountries <> [].
Proof.
  unfold defaultAllowedCountries.
  destruct allowedCountries; simpl; discriminate.
Qed.

Lemma Equal_refl (s : list string) : slices.Equal s s = true.
Proof. apply Equal_spec; reflexivity. Qed.

Lemma convertItems_strings (l : list string) (idx : nat) :
  convertItems idx (map IString l) = inl l.
Proof.
  revert idx; induction l as [|s l IH]; intros idx; simpl; [reflexivity|].
  rewrite IH; reflexivity.
Qed.

Lemma sliceFromInterface_strings (l : list string) :
  sliceFromInterface (ISlice (map IString l)) = (l, None).
Proof. unfold sliceFromInterface. rewrite convertItems_strings. reflexivity. Qed.

(** On failure [sliceFromInterface] hands back the empty slice. *)
Lemma sliceFromInterface_error (i : iface) (e : error) :
  snd (sliceFromInterface i) = Some e -> fst (sliceFromInterface i) = [].
Proof.
  destruct i; simpl; try reflexivity.
  destruct (convertItems 0 l); simpl; [discriminate | reflexivity].
Qed.

(** Unless the first answer is a nil pointer, [checkIP] returns, with a
    nil error, and only writes to the log. *)
Lemma checkIP_returns (myIP : string) (record : Record_) :
  (forall rest, Answers record <> None :: rest) ->
  exists ipMatches t,
    checkIP myIP record = (Ok (ipMatches, None), t) /\ forallb isNote t = true.
Proof.
  intros HN. unfold checkIP.
  destruct (Answers record) as [|[a|] rest]; simpl; [eauto| |].
  - destruct (Rdata a) as [|remoteIP more]; simpl; [eauto|].
    destruct (String.eqb myIP remoteIP); simpl; eauto.
  - destruct (HN rest eq_refl).
Qed.

(** On a first answer that is a nil pointer [checkIP] panics before it
    writes anything. *)
Lemma checkIP_nil (myIP : string) (record : Record_) rest :
  Answers record = None :: rest ->
  checkIP myIP record = (Panic nilDereference, []).
Proof. intros HA. unfold checkIP. rewrite HA. reflexivity. Qed.

Lemma checkIP_matches (myIP : string) (record : Record_) a rest more :
  Answers record = Some a :: rest -> Rdata a = myIP :: more ->
  checkIP myIP record = (Ok (true, None), [EvLog (LogIPMatches myIP (Domain record))]).
Proof.
  intros HA HR. unfold checkIP. rewrite HA; simpl. rewrite HR; simpl.
  rewrite String.eqb_refl. reflexivity.
Qed.

(** [processAnswer] always returns and only writes to the log. *)
Lemma processAnswer_returns (answer : Answer) (countries : list string) :
  exists r t,
    processAnswer answer countries = (Ok r, t) /\ forallb isNote t = true.
Proof.
  unfold processAnswer.
  destruct (Meta answer) as [meta|];
    [|do 2 eexists; split; reflexivity].
  destruct (sliceFromInterface (Country meta)) as [countryMeta [e|]];
    destruct (slices.Equal countryMeta countries);
    destruct (isTrue (Up meta)); simpl;
    do 2 eexists; (split; [reflexivity|reflexivity]).
Qed.

Lemma mutatingCalls_notes (t : list Event) :
  forallb isNote t = true -> mutatingCalls t = [].
Proof.
  induction t as [|e t IH]; simpl; [reflexivity|].
  rewrite andb_true_iff. intros [He Ht]. destruct e; try discriminate.
  simpl. auto.
Qed.

Lemma note_not_written (t : list Event) (e : Event) :
  forallb isNote t = true -> In e t ->
  isMutating e = false /\ isCreate e = false /\ isUpdate e = false
  /\ isGet e = false.
Proof.
  rewrite forallb_forall. intros H HI. specialize (H e HI).
  destruct e as [| | |[]|]; simpl in *; try discriminate; auto.
Qed.

Lemma decision_notes_app (t1 t2 : list Event) :
  forallb isNote t1 = true -> decision (t1 ++ t2) = decision t2.
Proof.
  intros H. unfold decision. rewrite !existsb_app.
  assert (existsb isCreate t1 = false /\ existsb isUpdate t1 = false)
    as [-> ->]; [|reflexivity].
  induction t1 as [|e t1 IH]; simpl in *; [auto|].
  apply andb_true_iff in H as [He Ht]. destruct (IH Ht) as [-> ->].
  destruct e as [| | |[]|]; simpl in *; try discriminate; auto.
Qed.

Lemma mutatingCalls_app (t1 t2 : list Event) :
  mutatingCalls (t1 ++ t2) = (mutatingCalls t1 ++ mutatingCalls t2)%list.
Proof. apply filter_app. Qed.

(** The run of [processSubdomain] on a record that exists and has an
    answer, in terms of the runs of [checkIP] and [processAnswer]. *)
Lemma processSubdomain_found (domain currentIP zone : string)
    (client : ns1.Client) (countries : list string) (test : bool)
    (record : Record_) (a : Answer) (rest : list (option Answer)) :
  ns1.Records_Get client zone domain "A" = inl record ->
  Answers record = Some a :: rest ->
  exists ipMatches tIP shouldUpdate countriesToUse tMeta,
    checkIP currentIP record = (Ok (ipMatches, None), tIP) /\
    forallb isNote tIP = true /\
    processAnswer a countries = (Ok (shouldUpdate, countriesToUse), tMeta) /\
    forallb isNote tMeta = true /\
    processSubdomain NewRecord domain currentIP zone client countries test =
      (Ok tt,
       (EvGet zone domain "A" :: tIP ++ tMeta ++
          (if negb ipMatches || shouldUpdate then
             EvLog LogShouldUpdate ::
               (if test then [EvLog (LogWouldUpdate domain currentIP)]
                else
                  let written :=
                    setAnswers record
                      [Some (freshAnswer currentIP countriesToUse)] in
                  EvUpdate written ::
                    match ns1.Records_Update client written with
                    | inr e =>
                        [EvLog (LogUpdateFailed domain
                                  ("failed to update record: " ++ e)%string)]
                    | inl updated => [EvLog (LogUpdated (Domain updated))]
                    end)
           else []))%list).
Proof.
  intros HG HA.
  destruct (checkIP_returns currentIP record) as (ipMatches & tIP & HC & HtIP).
  { intros rest' HN. rewrite HA in HN. discriminate HN. }
  destruct (processAnswer_returns a countries) as ([su ctu] & tMeta & HP & HtM).
  exists ipMatches, tIP, su, ctu, tMeta.
  repeat (split; [assumption|]).
  unfold processSubdomain, callGet. simpl. rewrite HG. simpl.
  rewrite HC, bind_Ok. simpl. rewrite HA. simpl. rewrite HP. simpl.
  unfold updateRecord, callUpdate.
  destruct ipMatches, su, test; simpl;
    try destruct (ns1.Records_Update client
                    (setAnswers record [Some (freshAnswer currentIP ctu)]));
    simpl; rewrite ?app_nil_r, <- ?app_assoc; reflexivity.
Qed.

(** The run of [processSubdomain] when the lookup fails, whatever the
    error. *)
Lemma processSubdomain_missing (domain currentIP zone : string)
    (client : ns1.Client) (countries : list string) (test : bool)
    (e : ns1.GetError) :
  ns1.Records_Get client zone domain "A" = inr e ->
  let data :=
    if Nat.ltb 0 (List.length countries) then
      {| Up := IBool true; Country := IStrings countries |}
    else {| Up := IBool true; Country := INil |} in
  let created :=
    setAnswers (NewRecord zone domain "A")
      [Some {| Rdata := [currentIP]; Meta := Some data |}] in
  processSubdomain NewRecord domain currentIP zone client countries test =
    (Ok tt,
     EvGet zone domain "A" ::
       (if test then [EvLog (LogWouldCreate domain currentIP)]
        else
          EvCreate created ::
            match ns1.Records_Create client created with
            | Some e' =>
                [EvLog (LogCreateFailed domain
                          ("failed to create record: " ++ e')%string)]
            | None => [EvLog (LogCreated domain currentIP)]
            end)).
Proof.
  intros HG data created.
  unfold processSubdomain, callGet. simpl. rewrite HG. simpl.
  destruct test; simpl; [reflexivity|].
  unfold createRecord, callCreate. fold data. fold created. simpl.
  destruct (ns1.Records_Create client created); reflexivity.
Qed.

(** The run of [processSubdomain] on a record that exists and has no
    answer. *)
Lemma processSubdomain_no_answers (domain currentIP zone : string)
    (client : ns1.Client) (countries : list string) (test : bool)
    (record : Record_) :
  ns1.Records_Get client zone domain "A" = inl record ->
  Answers record = [] ->
  processSubdomain NewRecord domain currentIP zone client countries test
  = (Panic "runtime error: index out of range [0] with length 0",
     [EvGet zone domain "A";
      EvLog (LogNoAnswers currentIP (Domain record))]).
Proof.
  intros HG HA.
  unfold processSubdomain, callGet, checkIP. simpl. rewrite HG. simpl.
  rewrite HA. reflexivity.
Qed.

(** The run of [processSubdomain] on a record that exists and whose first
    answer is a nil pointer. *)
Lemma processSubdomain_nil_answer (domain currentIP zone : string)
    (client : ns1.Client) (countries : list string) (test : bool)
    (record : Record_) (rest : list (option Answer)) :
  ns1.Records_Get client zone domain "A" = inl record ->
  Answers record = None :: rest ->
  processSubdomain NewRecord domain currentIP zone client countries test
  = (Panic nilDereference, [EvGet zone domain "A"]).
Proof.
  intros HG HA.
  unfold processSubdomain, callGet. simpl. rewrite HG. simpl.
  rewrite (checkIP_nil currentIP record rest HA). reflexivity.
Qed.

Lemma mutatingCalls_found (z d ty : string) (tIP tMeta tail : list Event) :
  forallb isNote tIP = true -> forallb isNote tMeta = true ->
  mutatingCalls (EvGet z d ty :: tIP ++ tMeta ++ tail) = mutatingCalls tail.
Proof.
  intros H1 H2. unfold mutatingCalls at 1. simpl. fold (mutatingCalls (tIP ++ tMeta ++ tail)).
  rewrite !mutatingCalls_app, (mutatingCalls_notes _ H1),
    (mutatingCalls_notes _ H2). reflexivity.
Qed.

Lemma decision_found (z d ty : string) (tIP tMeta tail : list Event) :
  forallb isNote tIP = true -> forallb isNote tMeta = true ->
  decision (EvGet z d ty :: tIP ++ tMeta ++ tail) = decision tail.
Proof.
  intros H1 H2.
  change (decision (EvGet z d ty :: tIP ++ tMeta ++ tail))
    with (decision (tIP ++ tMeta ++ tail)).
  rewrite !decision_notes_app by assumption. reflexivity.
Qed.

Lemma In_found (ev : Event) (z d ty : string) (tIP tMeta tail : list Event) :
  forallb isNote tIP = true -> forallb isNote tMeta = true ->
  In ev (EvGet z d ty :: tIP ++ tMeta ++ tail) ->
  ev = EvGet z d ty \/ isNote ev = true \/ In ev tail.
Proof.
  intros H1 H2 [<-|HI]; [auto|].
  rewrite forallb_forall in H1, H2.
  apply in_app_or in HI as [HI|HI]; [auto|].
  apply in_app_or in HI as [HI|HI]; auto.
Qed.

(** The differ on metadata with [up = true] and a well-formed country
    list. *)
Lemma processAnswer_up_strings (rdata existing desired : list string) :
  processAnswer
    {| Rdata := rdata;
       Meta := Some {| Up := IBool true;
                       Country := ISlice (map IString existing) |} |}
    desired
  = if slices.Equal existing desired then (Ok (false, []), [])
    else (Ok (true, desired), [EvLog LogCountriesDiffer]).
Proof.
  unfold processAnswer. cbn [Meta Country Up].
  rewrite sliceFromInterface_strings. simpl.
  destruct (slices.Equal existing desired); reflexivity.
Qed.

(** The run of [processSubdomain] on a record whose first answer already
    has the current IP, [up = true] and the desired countries. *)
Lemma processSubdomain_in_sync (domain currentIP zone : string)
    (client : ns1.Client) (desired more : list string) (test : bool)
    (record : Record_) (rest : list (option Answer)) :
  ns1.Records_Get client zone domain "A" = inl record ->
  Answers record
  = Some {| Rdata := currentIP :: more;
            Meta := Some {| Up := IBool true;
                            Country := ISlice (map IString desired) |} |}
      :: rest ->
  processSubdomain NewRecord domain currentIP zone client desired test
  = (Ok tt, [EvGet zone domain "A";
             EvLog (LogIPMatches currentIP (Domain record))]).
Proof.
  intros HG HA.
  destruct (processSubdomain_found domain currentIP zone client
              desired test record _ rest HG HA)
    as (im & tIP & su & ctu & tM & HC & _ & HP & _ & ->).
  rewrite (checkIP_matches currentIP record _ rest more HA eq_refl) in HC.
  rewrite processAnswer_up_strings, Equal_refl in HP.
  inversion HC; inversion HP; subst. reflexivity.
Qed.


Lemma trace_bind {A B : Type} (m : M A) (f : A -> M B) :
  trace (bind m f)
  = (trace m ++ match outcome m with
                | Ok a => trace (f a)
                | Panic _ => []
                end)%list.
Proof.
  destruct m as [[a|msg] t]; simpl.
  - destruct (f a); reflexivity.
  - symmetry; apply app_nil_r.
Qed.

(** The first thing a run of [processSubdomain] does is look the name up,
    and it never looks anything else up. *)
Lemma processSubdomain_lookup (domain currentIP zone : string)
    (client : ns1.Client) (countries : list string) (test : bool) :
  exists t,
    trace (processSubdomain NewRecord domain currentIP zone client countries
             test)
    = EvGet zone domain "A" :: t
    /\ forallb (fun e => negb (isGet e)) t = true.
Proof.
  destruct (ns1.Records_Get client zone domain "A") as [record|e] eqn:HG.
  - destruct (Answers record) as [|[a|] rest] eqn:HA;
      [| |rewrite (processSubdomain_nil_answer domain currentIP zone client
                     countries test record rest HG HA);
          eexists; split; reflexivity].
    + rewrite (processSubdomain_no_answers domain currentIP zone client
                 countries test record HG HA).
      eexists; split; reflexivity.
    + destruct (processSubdomain_found domain currentIP zone client
                  countries test record a rest HG HA)
        as (im & tIP & su & ctu & tM & _ & H1 & _ & H2 & ->).
      eexists; split; [reflexivity|].
      rewrite !forallb_app. repeat (apply andb_true_iff; split).
      * apply forallb_forall. intros ev HI.
        now destruct (note_not_written tIP ev H1 HI) as (_ & _ & _ & ->).
      * apply forallb_forall. intros ev HI.
        now destruct (note_not_written tM ev H2 HI) as (_ & _ & _ & ->).
      * destruct (negb im || su), test; try reflexivity.
        simpl. destruct (ns1.Records_Update client _); reflexivity.
  - rewrite (processSubdomain_missing domain currentIP zone client
               countries test e HG).
    eexists; split; [reflexivity|].
    destruct test; [reflexivity|].
    simpl. destruct (ns1.Records_Create client _); reflexivity.
Qed.

End Facts.

(** ** Properties of the specification *)

Section Properties.

Variable NewRecord : string -> string -> string -> Record_.

(** C9. An answer that carries no metadata at all makes the metadata
    differ ask for an update, with the desired country list as the list to
    write; nothing is logged. *)
Theorem absent_metadata_forces_update (rdata desired : list string) :
  processAnswer {| Rdata := rdata; Meta := None |} desired
  = (Ok (true, desired), []).
Proof. reflexivity. Qed.

(** C1 (refuted by the code). On a record that exists and has zero
    answers, [checkIP] reports a mismatch and logs it, and then
    [processSubdomain] indexes [record.Answers[0]]: the run ends in a
    runtime panic, in test mode or not, before any update is decided. *)
Theorem processSubdomain_zero_answers_panics
    (domain currentIP zone : string) (client : ns1.Client)
    (countries : list string) (test : bool) (record : Record_) :
  ns1.Records_Get client zone domain "A" = inl record ->
  Answers record = [] ->
  checkIP currentIP record
  = (Ok (false, None), [EvLog (LogNoAnswers currentIP (Domain record))])
  /\ processSubdomain NewRecord domain currentIP zone client countries test
     = (Panic "runtime error: index out of range [0] with length 0",
        [EvGet zone domain "A";
         EvLog (LogNoAnswers currentIP (Domain record))]).
Proof.
  intros HG HA. split.
  - unfold checkIP. rewrite HA. reflexivity.
  - now apply processSubdomain_no_answers.
Qed.

(** Malformed country data under [up = true]: the differ asks for an
    update with the desired list and logs the conversion failure. *)
Lemma malformed_countries_up_true
    (rdata : list string) (country : iface) (desired : list string)
    (e : error) :
  snd (sliceFromInterface country) = Some e ->
  outcome (processAnswer
             {| Rdata := rdata;
                Meta := Some {| Up := IBool true; Country := country |} |}
             desired)
  = Ok (true, desired).
Proof.
  intros HE. unfold processAnswer. simpl.
  pose proof (sliceFromInterface_error country e HE) as HF.
  destruct (sliceFromInterface country) as [cm ce]. simpl in *. subst.
  destruct (slices.Equal [] desired); reflexivity.
Qed.

(** C3 (refuted by the code). When the country metadata is malformed
    and [up] is not [true], the differ does ask for an update, logs the
    conversion failure and returns normally, but the list it returns is
    the empty slice [sliceFromInterface] handed back, not the desired
    list: the last test of [processAnswer] overwrites the default it had
    just chosen. *)
Theorem malformed_countries_up_not_true
    (rdata : list string) (up country : iface) (desired : list string)
    (e : error) :
  snd (sliceFromInterface country) = Some e ->
  isTrue up = false ->
  outcome (processAnswer
             {| Rdata := rdata;
                Meta := Some {| Up := up; Country := country |} |}
             desired)
  = Ok (true, [])
  /\ In (EvLog (LogConvertFailure e))
       (trace (processAnswer
                 {| Rdata := rdata;
                    Meta := Some {| Up := up; Country := country |} |}
                 desired)).
Proof.
  intros HE HU. unfold processAnswer. simpl.
  pose proof (sliceFromInterface_error country e HE) as HF.
  destruct (sliceFromInterface country) as [cm ce]. simpl in *. subst.
  rewrite HU.
  destruct (slices.Equal [] desired); simpl; auto.
Qed.

(** C2 (as amended). For an answer whose metadata has [up = true] and a
    well-formed country list, on a record whose IP matches: when the
    stored list equals the desired list element by element, in the same
    order, the differ reports no update and the run does nothing beyond
    the lookup and the log line of the matching IP; when the two lists
    differ in any way, order included, the differ reports an update with
    the desired list. *)
Theorem same_order_countries_noop
    (domain currentIP zone : string) (client : ns1.Client)
    (desired existing more : list string) (test : bool)
    (record : Record_) (rest : list (option Answer)) :
  let a :=
    {| Rdata := currentIP :: more;
       Meta := Some {| Up := IBool true;
                       Country := ISlice (map IString existing) |} |} in
  ns1.Records_Get client zone domain "A" = inl record ->
  Answers record = Some a :: rest ->
  (existing = desired ->
     processAnswer a desired = (Ok (false, []), [])
     /\ processSubdomain NewRecord domain currentIP zone client desired test
        = (Ok tt, [EvGet zone domain "A";
                   EvLog (LogIPMatches currentIP (Domain record))]))
  /\ (existing <> desired ->
        processAnswer a desired
        = (Ok (true, desired), [EvLog LogCountriesDiffer])).
Proof.
  intros a HG HA.
  pose proof (processAnswer_up_strings (currentIP :: more) existing desired)
    as HP.
  fold a in HP.
  split.
  - intros ->. rewrite Equal_refl in HP. split; [exact HP|].
    now apply (processSubdomain_in_sync NewRecord domain currentIP zone
                 client desired more test record rest).
  - intros HN. destruct (slices.Equal existing desired) eqn:E; [|exact HP].
    apply Equal_spec in E. contradiction.
Qed.

(** C4. On a record that exists, whose first answer has metadata with a
    well-formed country list and [up] other than [true], the differ asks
    for an update with the record's existing country list; the update the
    engine then decides carries that list, not the desired one: it is the
    one record written when not in test mode, and in test mode the update
    is announced and nothing is written. *)
Theorem up_not_true_keeps_existing_countries
    (domain currentIP zone : string) (client : ns1.Client)
    (desired existing : list string) (record : Record_)
    (a : Answer) (rest : list (option Answer)) (meta : ns1data.Meta) :
  ns1.Records_Get client zone domain "A" = inl record ->
  Answers record = Some a :: rest ->
  Meta a = Some meta ->
  Country meta = ISlice (map IString existing) ->
  isTrue (Up meta) = false ->
  outcome (processAnswer a desired) = Ok (true, existing)
  /\ mutatingCalls
       (trace (processSubdomain NewRecord domain currentIP zone client
                 desired false))
     = [EvUpdate (setAnswers record [Some (freshAnswer currentIP existing)])]
  /\ mutatingCalls
       (trace (processSubdomain NewRecord domain currentIP zone client
                 desired true))
     = []
  /\ In (EvLog (LogWouldUpdate domain currentIP))
       (trace (processSubdomain NewRecord domain currentIP zone client
                 desired true))
  /\ forall test,
       decision
         (trace (processSubdomain NewRecord domain currentIP zone client
                   desired test))
       = Update.
Proof.
  intros HG HA HM HCo HU.
  assert (HO : outcome (processAnswer a desired) = Ok (true, existing)).
  { unfold processAnswer. rewrite HM, HCo, sliceFromInterface_strings, HU.
    destruct (slices.Equal existing desired); reflexivity. }
  split; [exact HO|].
  assert (HR : forall test,
    exists tIP tMeta,
      forallb isNote tIP = true /\ forallb isNote tMeta = true /\
      trace (processSubdomain NewRecord domain currentIP zone client
               desired test)
      = (EvGet zone domain "A" :: tIP ++ tMeta ++
           EvLog LogShouldUpdate ::
             (if test then [EvLog (LogWouldUpdate domain currentIP)]
              else
                EvUpdate (setAnswers record [Some (freshAnswer currentIP existing)])
                  :: match
                       ns1.Records_Update client
                         (setAnswers record [Some (freshAnswer currentIP existing)])
                     with
                     | inr e =>
                         [EvLog (LogUpdateFailed domain
                                   ("failed to update record: " ++ e)%string)]
                     | inl updated => [EvLog (LogUpdated (Domain updated))]
                     end))%list).
  { intros test.
    destruct (processSubdomain_found NewRecord domain currentIP zone client
                desired test record a rest HG HA)
      as (im & tIP & su & ctu & tM & HC & HtIP & HP & HtM & ->).
    rewrite HP in HO. inversion HO; subst.
    exists tIP, tM. rewrite orb_true_r. auto. }
  repeat split.
  - destruct (HR false) as (tIP & tM & H1 & H2 & ->).
    rewrite mutatingCalls_found by assumption.
    destruct (ns1.Records_Update client _); reflexivity.
  - destruct (HR true) as (tIP & tM & H1 & H2 & ->).
    rewrite mutatingCalls_found by assumption. reflexivity.
  - destruct (HR true) as (tIP & tM & H1 & H2 & ->).
    right. apply in_or_app; right. apply in_or_app; right.
    simpl; auto.
  - intros test. destruct (HR test) as (tIP & tM & H1 & H2 & ->).
    rewrite decision_found by assumption.
    destruct test; [reflexivity|].
    destruct (ns1.Records_Update client _); reflexivity.
Qed.

(** C5. Idempotence. When a run whose lookup failed has created the
    record, what the create decision leaves at the provider is that record
    with one answer: the IP as its only rdata, [up] true and the desired
    countries. A later run with the same IP and the same desired list that
    is handed this state does nothing beyond the lookup and the log line
    of the matching IP: no write, no announced write. For every desired
    list that is not empty, as every list [main] passes is, this state is
    the provider's copy of the very record the create call wrote. *)
Theorem create_then_reconcile_noop
    (domain currentIP zone : string) (first later : ns1.Client)
    (desired : list string) (test : bool) (e : ns1.GetError)
    (written : Record_) :
  ns1.Records_Get first zone domain "A" = inr e ->
  mutatingCalls
    (trace (processSubdomain NewRecord domain currentIP zone first desired
              false))
  = [EvCreate written] ->
  let state :=
    setAnswers written
      [Some {| Rdata := [currentIP];
               Meta := Some {| Up := IBool true;
                               Country := ISlice (map IString desired) |} |}]
  in
  ns1.Records_Get later zone domain "A" = inl state ->
  (processSubdomain NewRecord domain currentIP zone later desired test
   = (Ok tt, [EvGet zone domain "A";
              EvLog (LogIPMatches currentIP (Domain written))])
   /\ decision
        (trace (processSubdomain NewRecord domain currentIP zone later
                  desired test))
      = NoOp)
  /\ (desired <> [] -> stored written = Some state).
Proof.
  intros HG1 HW state HG2.
  assert (HRun :
    processSubdomain NewRecord domain currentIP zone later desired test
    = (Ok tt, [EvGet zone domain "A";
               EvLog (LogIPMatches currentIP (Domain state))])).
  { apply (processSubdomain_in_sync NewRecord domain currentIP zone later
             desired [] test state []); [exact HG2|reflexivity]. }
  split.
  - rewrite HRun. split; reflexivity.
  - intros HD.
    rewrite (processSubdomain_missing NewRecord domain currentIP zone first
               desired false e HG1) in HW.
    destruct desired as [|c cs]; [contradiction|].
    cbn [List.length Nat.ltb Nat.leb] in HW.
    assert (HWr : written =
                  setAnswers (NewRecord zone domain "A")
                    [Some {| Rdata := [currentIP];
                             Meta := Some {| Up := IBool true;
                                             Country := IStrings (c :: cs) |}
                          |}]).
    { unfold trace, mutatingCalls in HW. simpl in HW.
      destruct (ns1.Records_Create first _); simpl in HW;
        inversion HW; reflexivity. }
    unfold state. rewrite HWr. reflexivity.
Qed.

(** C6 (as amended). A run of [processSubdomain] decides to create the
    record exactly when the lookup returns an error, whatever the error:
    a missing record and a failed transport are treated alike. The error
    of the lookup is not passed on: the run returns normally and, when not
    in test mode, makes exactly one create call. *)
Theorem create_iff_lookup_fails
    (domain currentIP zone : string) (client : ns1.Client)
    (countries : list string) (test : bool) :
  let run :=
    processSubdomain NewRecord domain currentIP zone client countries test in
  (decision (trace run) = Create
   <-> exists e, ns1.Records_Get client zone domain "A" = inr e)
  /\ (forall e, ns1.Records_Get client zone domain "A" = inr e ->
        outcome run = Ok tt
        /\ (test = false -> exists r, mutatingCalls (trace run) = [EvCreate r])).
Proof.
  intros run. unfold run. clear run.
  destruct (ns1.Records_Get client zone domain "A") as [record|e] eqn:HG.
  - split; [|discriminate].
    split; [|intros [e He]; discriminate].
    destruct (Answers record) as [|[a|] rest] eqn:HA;
      [| |rewrite ?(processSubdomain_nil_answer NewRecord domain currentIP zone client countries test
                      record rest HG HA) in *;
          discriminate].
    + rewrite (processSubdomain_no_answers NewRecord domain currentIP zone
                 client countries test record HG HA). discriminate.
    + destruct (processSubdomain_found NewRecord domain currentIP zone client
                  countries test record a rest HG HA)
        as (im & tIP & su & ctu & tM & _ & H1 & _ & H2 & ->).
      unfold trace, snd. rewrite decision_found by assumption.
      destruct (negb im || su), test; try discriminate.
      cbv zeta. destruct (ns1.Records_Update client _); discriminate.
  - rewrite (processSubdomain_missing NewRecord domain currentIP zone client
               countries test e HG).
    split.
    + split; [eauto|intros _].
      destruct test; [reflexivity|].
      cbv zeta. destruct (ns1.Records_Create client _); reflexivity.
    + intros e' _. split; [reflexivity|]. intros ->.
      cbv zeta. eexists.
      destruct (ns1.Records_Create client _); reflexivity.
Qed.


(** C8. Every record a run of [processSubdomain] hands to the provider's
    create or update call has exactly one answer, whose rdata is the
    one-element list of the current IP and whose metadata is present with
    [up = true]; this holds whatever made the run write, an IP mismatch or
    a metadata difference alone. *)
Theorem written_answer_fully_populated
    (domain currentIP zone : string) (client : ns1.Client)
    (countries : list string) (test : bool) (r : Record_) :
  let t :=
    trace (processSubdomain NewRecord domain currentIP zone client countries
             test) in
  In (EvCreate r) t \/ In (EvUpdate r) t ->
  exists country,
    Answers r
    = [Some {| Rdata := [currentIP];
          Meta := Some {| Up := IBool true; Country := country |} |}].
Proof.
  intros t. unfold t. clear t.
  destruct (ns1.Records_Get client zone domain "A") as [record|e] eqn:HG.
  - destruct (Answers record) as [|[a|] rest] eqn:HA;
      [| |rewrite ?(processSubdomain_nil_answer NewRecord domain currentIP zone client countries test
                      record rest HG HA) in *;
          intros [[H|[]]|[H|[]]]; discriminate H].
    + rewrite (processSubdomain_no_answers NewRecord domain currentIP zone
                 client countries test record HG HA).
      intros [[H|[H|[]]]|[H|[H|[]]]]; discriminate H.
    + destruct (processSubdomain_found NewRecord domain currentIP zone client
                  countries test record a rest HG HA)
        as (im & tIP & su & ctu & tM & _ & H1 & _ & H2 & ->).
      unfold trace, snd.
      assert (HT : forall ev, isMutating ev = true ->
                In ev
                  (EvGet zone domain "A" :: tIP ++ tM ++
                     (if negb im || su
                      then
                        EvLog LogShouldUpdate ::
                          (if test
                           then [EvLog (LogWouldUpdate domain currentIP)]
                           else
                             let written :=
                               setAnswers record [Some (freshAnswer currentIP ctu)] in
                             EvUpdate written ::
                               match ns1.Records_Update client written with
                               | inr e =>
                                   [EvLog
                                      (LogUpdateFailed domain
                                         ("failed to update record: " ++ e)%string)]
                               | inl updated => [EvLog (LogUpdated (Domain updated))]
                               end)
                      else []))%list ->
                ev = EvUpdate (setAnswers record [Some (freshAnswer currentIP ctu)])).
      { intros ev Hev HI.
        apply In_found in HI as [HI|[HI|HI]]; try assumption.
        - subst ev; discriminate Hev.
        - destruct ev; discriminate.
        - destruct (negb im || su); [|destruct HI].
          destruct test; cbv zeta in HI.
          + destruct HI as [HI|[HI|[]]]; subst ev; discriminate Hev.
          + destruct (ns1.Records_Update client _);
              destruct HI as [HI|[HI|[HI|[]]]]; subst ev;
              try discriminate Hev; reflexivity. }
      intros [HI|HI]; apply HT in HI; try reflexivity;
        [discriminate HI|].
      inversion HI. eexists; reflexivity.
  - rewrite (processSubdomain_missing NewRecord domain currentIP zone client
               countries test e HG).
    cbv zeta. unfold trace, snd.
    destruct test.
    + intros [[H|[H|[]]]|[H|[H|[]]]]; discriminate H.
    + destruct (ns1.Records_Create client _);
        (intros [[H|[H|[H|[]]]]|[H|[H|[H|[]]]]]; try discriminate H;
         inversion H; destruct (Nat.ltb 0 (List.length countries));
         eexists; reflexivity).
Qed.

(** C10. The name a subdomain is reconciled under: the core domain itself
    when the label is "@", and otherwise the label, a dot and the core
    domain, in that order. The subdomain loop of [main] looks up exactly
    such names: every lookup it makes is for the full name of one of the
    host's labels, and it starts with the lookup of the first label's. *)
Theorem fullSubdomain_names (coreDomain subdomain : string) :
  fullSubdomain coreDomain "@" = coreDomain
  /\ (subdomain <> "@" ->
        fullSubdomain coreDomain subdomain = subdomain ++ "." ++ coreDomain)
  /\ (forall myIP zone client allowed test delay rest,
        exists t,
          trace (processSubdomains NewRecord coreDomain myIP zone client
                   allowed test delay (subdomain :: rest))
          = EvGet zone (fullSubdomain coreDomain subdomain) "A" :: t)
  /\ (forall myIP zone client allowed test delay subdomains z d ty,
        In (EvGet z d ty)
          (trace (processSubdomains NewRecord coreDomain myIP zone client
                    allowed test delay subdomains)) ->
        exists label,
          In label subdomains /\ d = fullSubdomain coreDomain label
          /\ z = zone /\ ty = "A").
Proof.
  split; [reflexivity|]. split.
  { intros HN. unfold fullSubdomain.
    destruct (String.eqb_spec subdomain "@"); [contradiction|reflexivity]. }
  split.
  { intros. simpl processSubdomains. rewrite trace_bind.
    destruct (processSubdomain_lookup NewRecord
                (fullSubdomain coreDomain subdomain) myIP zone client allowed
                test) as (t & -> & _).
    eexists. reflexivity. }
  intros myIP zone client allowed test delay subdomains.
  induction subdomains as [|label rest IH]; intros z d ty HI.
  - destruct HI.
  - simpl processSubdomains in HI. rewrite trace_bind in HI.
    apply in_app_or in HI as [HI|HI].
    + destruct (processSubdomain_lookup NewRecord
                  (fullSubdomain coreDomain label) myIP zone client allowed
                  test) as (t & Ht & Hn).
      rewrite Ht in HI. destruct HI as [HI|HI].
      * inversion HI; subst. exists label. simpl; auto.
      * rewrite forallb_forall in Hn. specialize (Hn _ HI). discriminate Hn.
    + destruct (outcome (processSubdomain NewRecord _ myIP zone client
                           allowed test)); [|destruct HI].
      destruct (processSubdomains NewRecord coreDomain myIP zone client
                  allowed test delay rest) as [r t'].
      simpl in HI, IH.
      destruct HI as [HI|HI]; [discriminate HI|].
      destruct (IH z d ty HI) as (l & Hl & Hd).
      exists l. simpl; auto.
Qed.

End Properties.

(** ** Concrete runs *)

Lemma processSubdomain_zero_answers_panics_witness :
  homeRun (clientFinding (homeRecord [])) ["US"; "CA"] false
  = (Panic "runtime error: index out of range [0] with length 0",
     [EvGet "example.com" "home.example.com" "A";
      EvLog (LogNoAnswers "203.0.113.5" "home.example.com")]).
Proof.
  exact (proj2 (processSubdomain_zero_answers_panics plainRecord
                  "home.example.com" "203.0.113.5" "example.com"
                  (clientFinding (homeRecord [])) ["US"; "CA"] false
                  (homeRecord []) eq_refl eq_refl)).
Defined.

(** C2 as stated fails: the stored list US, CA and the desired
    list CA, US hold the same countries, yet the differ asks for an update
    and the run, whose IP matches, decides to update. *)
Lemma country_order_counterexample :
  Permutation ["US"; "CA"] ["CA"; "US"]
  /\ outcome (processAnswer
                (homeAnswer (IBool true) (ISlice [IString "US"; IString "CA"]))
                ["CA"; "US"])
     = Ok (true, ["CA"; "US"])
  /\ decision
       (trace (homeRun
                 (clientFinding
                    (homeRecord
                       [homeAnswer (IBool true)
                          (ISlice [IString "US"; IString "CA"])]))
                 ["CA"; "US"] false))
     = Update.
Proof.
  split; [apply perm_swap|]. split; reflexivity.
Qed.

Lemma same_order_countries_noop_witness :
  homeRun
    (clientFinding
       (homeRecord
          [homeAnswer (IBool true) (ISlice [IString "US"; IString "CA"])]))
    ["US"; "CA"] false
  = (Ok tt, [EvGet "example.com" "home.example.com" "A";
             EvLog (LogIPMatches "203.0.113.5" "home.example.com")]).
Proof.
  exact (proj2
           (proj1
              (same_order_countries_noop plainRecord "home.example.com"
                 "203.0.113.5" "example.com"
                 (clientFinding
                    (homeRecord
                       [homeAnswer (IBool true)
                          (ISlice [IString "US"; IString "CA"])]))
                 ["US"; "CA"] ["US"; "CA"] [] false
                 (homeRecord
                    [homeAnswer (IBool true)
                       (ISlice [IString "US"; IString "CA"])])
                 [] eq_refl eq_refl)
              eq_refl)).
Defined.

Lemma malformed_countries_up_not_true_witness :
  outcome (processAnswer (homeAnswer (IBool false) (IString "US"))
             ["US"; "CA"])
  = Ok (true, []).
Proof.
  exact (proj1
           (malformed_countries_up_not_true ["203.0.113.5"] (IBool false)
              (IString "US") ["US"; "CA"] "dunno how we got here"
              eq_refl eq_refl)).
Defined.

Lemma up_not_true_keeps_existing_countries_witness :
  mutatingCalls
    (trace (homeRun
              (clientFinding
                 (homeRecord
                    [homeAnswer (IBool false) (ISlice [IString "DE"])]))
              ["US"; "CA"] false))
  = [EvUpdate
       (homeRecord
          [{| Rdata := ["203.0.113.5"];
              Meta := Some {| Up := IBool true;
                              Country := IStrings ["DE"] |} |}])].
Proof.
  exact (proj1
           (proj2
              (up_not_true_keeps_existing_countries plainRecord
                 "home.example.com" "203.0.113.5" "example.com"
                 (clientFinding
                    (homeRecord
                       [homeAnswer (IBool false) (ISlice [IString "DE"])]))
                 ["US"; "CA"] ["DE"]
                 (homeRecord
                    [homeAnswer (IBool false) (ISlice [IString "DE"])])
                 (homeAnswer (IBool false) (ISlice [IString "DE"])) []
                 {| Up := IBool false; Country := ISlice [IString "DE"] |}
                 eq_refl eq_refl eq_refl eq_refl eq_refl))).
Defined.

Lemma create_then_reconcile_noop_witness :
  (homeRun
     (clientFinding
        (homeRecord
           [homeAnswer (IBool true) (ISlice [IString "US"; IString "CA"])]))
     ["US"; "CA"] true
   = (Ok tt, [EvGet "example.com" "home.example.com" "A";
              EvLog (LogIPMatches "203.0.113.5" "home.example.com")])
   /\ decision
        (trace
           (homeRun
              (clientFinding
                 (homeRecord
                    [homeAnswer (IBool true)
                       (ISlice [IString "US"; IString "CA"])]))
              ["US"; "CA"] true))
      = NoOp)
  /\ (["US"; "CA"] <> [] ->
      stored (homeRecord [homeAnswer (IBool true) (IStrings ["US"; "CA"])])
      = Some
          (homeRecord
             [homeAnswer (IBool true) (ISlice [IString "US"; IString "CA"])])).
Proof.
  exact (create_then_reconcile_noop plainRecord "home.example.com"
           "203.0.113.5" "example.com"
           (clientFailing ns1.ErrRecordMissing)
           (clientFinding
              (homeRecord
                 [homeAnswer (IBool true)
                    (ISlice [IString "US"; IString "CA"])]))
           ["US"; "CA"] true ns1.ErrRecordMissing
           (homeRecord [homeAnswer (IBool true) (IStrings ["US"; "CA"])])
           eq_refl eq_refl eq_refl).
Defined.

(** C6 as stated fails: the lookup fails on the transport, not
    because the record is missing, and the run neither stops nor reports
    an error: it returns normally, having made the create call. *)
Lemma transport_failure_still_creates :
  ns1.Records_Get (clientFailing (ns1.ErrOther "i/o timeout"))
    "example.com" "home.example.com" "A"
  = inr (ns1.ErrOther "i/o timeout")
  /\ ns1.ErrOther "i/o timeout" <> ns1.ErrRecordMissing
  /\ homeRun (clientFailing (ns1.ErrOther "i/o timeout")) ["US"; "CA"] false
     = (Ok tt,
        [EvGet "example.com" "home.example.com" "A";
         EvCreate
           (homeRecord [homeAnswer (IBool true) (IStrings ["US"; "CA"])]);
         EvLog (LogCreated "home.example.com" "203.0.113.5")])
  /\ decision
       (trace (homeRun (clientFailing (ns1.ErrOther "i/o timeout"))
                 ["US"; "CA"] false))
     = Create.
Proof.
  repeat split; try reflexivity. discriminate.
Qed.

Lemma create_iff_lookup_fails_witness :
  decision
    (trace (homeRun (clientFailing ns1.ErrRecordMissing) ["US"; "CA"] true))
  = Create.
Proof.
  apply (proj1 (create_iff_lookup_fails plainRecord "home.example.com"
                  "203.0.113.5" "example.com"
                  (clientFailing ns1.ErrRecordMissing) ["US"; "CA"] true)).
  exists ns1.ErrRecordMissing. reflexivity.
Defined.


Lemma written_answer_fully_populated_witness :
  exists country,
    Answers (homeRecord [homeAnswer (IBool true) (IStrings ["US"; "CA"])])
    = [Some {| Rdata := ["203.0.113.5"];
          Meta := Some {| Up := IBool true; Country := country |} |}].
Proof.
  apply (written_answer_fully_populated plainRecord "home.example.com"
           "203.0.113.5" "example.com"
           (clientFinding (homeRecord [homeAnswer (IBool true) INil]))
           ["US"; "CA"] false).
  right. vm_compute. do 5 right. left. reflexivity.
Defined.

Lemma fullSubdomain_names_witness :
  "www" <> "@"
  /\ fullSubdomain "example.com" "www" = "www.example.com"
  /\ fullSubdomain "example.com" "@" = "example.com".
Proof.
  assert (H : "www" <> "@") by discriminate.
  split; [exact H|]. split.
  - exact (proj1 (proj2 (fullSubdomain_names plainRecord "example.com" "www"))
             H).
  - exact (proj1 (fullSubdomain_names plainRecord "example.com" "www")).
Defined.

(** ** Further facts about the engine *)

Section MoreFacts.

Variable NewRecord : string -> string -> string -> Record_.

Lemma convertItems_inl (slice : list iface) (idx : nat) (result : list string) :
  convertItems idx slice = inl result -> slice = map IString result.
Proof.
  revert idx result; induction slice as [|item rest IH]; intros idx result.
  - simpl. intros H; inversion H; reflexivity.
  - simpl. destruct item; try discriminate.
    destruct (convertItems (S idx) rest) as [r|e] eqn:E; [|discriminate].
    intros H; inversion H; subst. simpl. f_equal. now apply (IH (S idx)).
Qed.

Lemma convertItems_bad (good : list string) (item : iface)
    (rest : list iface) (idx : nat) :
  (forall s, item <> IString s) ->
  convertItems idx (map IString good ++ item :: rest)
  = inr ("element at index " ++ itoa (idx + List.length good)
           ++ " is not a string (type: " ++ typeName item ++ ")").
Proof.
  intros HN. revert idx; induction good as [|g good IH]; intros idx.
  - simpl. rewrite Nat.add_0_r.
    destruct item; try reflexivity. destruct (HN s eq_refl).
  - simpl. rewrite IH. rewrite <- plus_n_Sm. reflexivity.
Qed.

Lemma sliceFromInterface_ok (i : iface) (l : list string) :
  sliceFromInterface i = (l, None) <-> i = ISlice (map IString l).
Proof.
  split.
  - destruct i; simpl; try discriminate.
    destruct (convertItems 0 l0) as [r|e] eqn:E; [|discriminate].
    intros H; inversion H; subst. f_equal. now apply (convertItems_inl _ 0).
  - intros ->. apply sliceFromInterface_strings.
Qed.

(** [checkIP] says yes exactly when the first rdata of the first answer is
    the current IP. *)
Lemma checkIP_true_iff (myIP : string) (record : Record_) (t : list Event) :
  checkIP myIP record = (Ok (true, None), t)
  <-> (exists a rest more,
         Answers record = Some a :: rest /\ Rdata a = myIP :: more)
      /\ t = [EvLog (LogIPMatches myIP (Domain record))].
Proof.
  split.
  - unfold checkIP.
    destruct (Answers record) as [|[a|] rest]; simpl;
      [discriminate| |discriminate].
    destruct (Rdata a) as [|remoteIP more] eqn:HR; simpl; [discriminate|].
    destruct (String.eqb_spec myIP remoteIP); simpl; [|discriminate].
    intros H; inversion H; subst. split; [|reflexivity].
    exists a, rest, more. auto.
  - intros [(a & rest & more & HA & HR) ->].
    now apply (checkIP_matches myIP record a rest more).
Qed.

(** The differ is content exactly when the metadata is there, is up and
    lists the desired countries in order. *)
Lemma processAnswer_false_iff (answer : Answer) (desired : list string)
    (l : list string) (t : list Event) :
  processAnswer answer desired = (Ok (false, l), t)
  <-> Meta answer
      = Some {| Up := IBool true; Country := ISlice (map IString desired) |}
      /\ l = [] /\ t = [].
Proof.
  split.
  - unfold processAnswer. destruct (Meta answer) as [[up country]|];
      [|discriminate]. cbn [Up Country].
    destruct (sliceFromInterface country) as [cm [e|]] eqn:ES;
      destruct (slices.Equal cm desired) eqn:EE;
      destruct up as [|[|]| | | | |]; simpl; try discriminate.
    intros H; inversion H; subst.
    apply Equal_spec in EE. subst cm.
    apply sliceFromInterface_ok in ES. subst. auto.
  - intros (HM & -> & ->). destruct answer as [rdata meta]. simpl in HM.
    subst meta. rewrite processAnswer_up_strings, Equal_refl. reflexivity.
Qed.

Lemma outcome_bind {A B : Type} (m : M A) (f : A -> M B) :
  outcome (bind m f)
  = match outcome m with
    | Ok a => outcome (f a)
    | Panic msg => Panic msg
    end.
Proof.
  destruct m as [[a|msg] t]; simpl; [|reflexivity].
  destruct (f a); reflexivity.
Qed.

(** How a run of [processSubdomain] ends. *)
Lemma processSubdomain_outcome (domain currentIP zone : string)
    (client : ns1.Client) (countries : list string) (test : bool) :
  outcome (processSubdomain NewRecord domain currentIP zone client countries
             test)
  = match ns1.Records_Get client zone domain "A" with
    | inl record =>
        match Answers record with
        | [] => Panic "runtime error: index out of range [0] with length 0"
        | None :: _ => Panic nilDereference
        | Some _ :: _ => Ok tt
        end
    | inr _ => Ok tt
    end.
Proof.
  destruct (ns1.Records_Get client zone domain "A") as [record|e] eqn:HG.
  - destruct (Answers record) as [|[a|] rest] eqn:HA;
      [| |now rewrite (processSubdomain_nil_answer NewRecord domain currentIP
                         zone client countries test record rest HG HA)].
    + now rewrite (processSubdomain_no_answers NewRecord domain currentIP
                     zone client countries test record HG HA).
    + destruct (processSubdomain_found NewRecord domain currentIP zone client
                  countries test record a rest HG HA)
        as (im & tIP & su & ctu & tM & _ & _ & _ & _ & ->).
      reflexivity.
  - now rewrite (processSubdomain_missing NewRecord domain currentIP zone
                   client countries test e HG).
Qed.

(** A run of [processSubdomain] never sleeps. *)
Lemma processSubdomain_no_sleep (domain currentIP zone : string)
    (client : ns1.Client) (countries : list string) (test : bool) :
  filter isSleep
    (trace (processSubdomain NewRecord domain currentIP zone client countries
              test))
  = [].
Proof.
  assert (HN : forall t, forallb isNote t = true -> filter isSleep t = []).
  { induction t as [|e t IH]; simpl; [reflexivity|].
    rewrite andb_true_iff. intros [He Ht].
    destruct e; try discriminate. simpl. auto. }
  destruct (ns1.Records_Get client zone domain "A") as [record|e] eqn:HG.
  - destruct (Answers record) as [|[a|] rest] eqn:HA;
      [| |rewrite ?(processSubdomain_nil_answer NewRecord domain currentIP zone client countries test
                      record rest HG HA) in *;
          reflexivity].
    + now rewrite (processSubdomain_no_answers NewRecord domain currentIP
                     zone client countries test record HG HA).
    + destruct (processSubdomain_found NewRecord domain currentIP zone client
                  countries test record a rest HG HA)
        as (im & tIP & su & ctu & tM & _ & H1 & _ & H2 & ->).
      unfold trace, snd. simpl filter.
      rewrite !filter_app, (HN _ H1), (HN _ H2). simpl.
      destruct (negb im || su), test; try reflexivity.
      cbv zeta. destruct (ns1.Records_Update client _); reflexivity.
  - rewrite (processSubdomain_missing NewRecord domain currentIP zone
               client countries test e HG).
    cbv zeta. destruct test; [reflexivity|].
    unfold trace, snd. simpl.
    destruct (ns1.Records_Create client _); reflexivity.
Qed.

(** The lookups of a run of [processSubdomain]: the one it starts with. *)
Lemma processSubdomain_gets (domain currentIP zone : string)
    (client : ns1.Client) (countries : list string) (test : bool) :
  filter isGet
    (trace (processSubdomain NewRecord domain currentIP zone client countries
              test))
  = [EvGet zone domain "A"].
Proof.
  destruct (processSubdomain_lookup NewRecord domain currentIP zone client
              countries test) as (t & -> & Ht).
  simpl. f_equal.
  induction t as [|e t IH]; simpl in *; [reflexivity|].
  apply andb_true_iff in Ht as [He Ht].
  destruct (isGet e); [discriminate|]. auto.
Qed.

Lemma checkIP_diagnostic (myIP : string) (record : Record_) :
  forallb isDiagnostic (trace (checkIP myIP record)) = true.
Proof.
  unfold checkIP.
  destruct (Answers record) as [|[a|] rest]; simpl;
    [reflexivity| |reflexivity].
  destruct (Rdata a) as [|remoteIP more]; simpl; [reflexivity|].
  destruct (String.eqb myIP remoteIP); reflexivity.
Qed.

Lemma processAnswer_diagnostic (answer : Answer) (countries : list string) :
  forallb isDiagnostic (trace (processAnswer answer countries)) = true.
Proof.
  unfold processAnswer.
  destruct (Meta answer) as [meta|]; [|reflexivity].
  destruct (sliceFromInterface (Country meta)) as [countryMeta [e|]];
    destruct (slices.Equal countryMeta countries);
    destruct (isTrue (Up meta)); reflexivity.
Qed.

Lemma In_diagnostic (t : list Event) (e : Event) :
  forallb isDiagnostic t = true -> In e t -> isDiagnostic e = true.
Proof. rewrite forallb_forall. auto. Qed.

(** One turn of the loop over the subdomains. *)
Lemma processSubdomains_cons (domain myIP zone : string)
    (client : ns1.Client) (allowed : list string) (test : bool) (delay : Z)
    (label : string) (rest : list string) :
  processSubdomains NewRecord domain myIP zone client allowed test delay
    (label :: rest)
  = match
      processSubdomain NewRecord (fullSubdomain domain label) myIP zone
        client allowed test
    with
    | (Ok _, t) =>
        let (r, t') :=
          processSubdomains NewRecord domain myIP zone client allowed test
            delay rest in
        (r, (t ++ EvSleep delay :: t')%list)
    | (Panic msg, t) => (Panic msg, t)
    end.
Proof.
  simpl processSubdomains.
  destruct (processSubdomain NewRecord (fullSubdomain domain label) myIP zone
              client allowed test) as [[[]|msg] t]; simpl; [|reflexivity].
  destruct (processSubdomains NewRecord domain myIP zone client allowed test
              delay rest); reflexivity.
Qed.

(** Where the events of a loop over the subdomains come from. *)
Lemma processSubdomains_event (domain myIP zone : string)
    (client : ns1.Client) (allowed : list string) (test : bool) (delay : Z)
    (subdomains : list string) (e : Event) :
  In e (trace (processSubdomains NewRecord domain myIP zone client allowed
                 test delay subdomains)) ->
  e = EvSleep delay
  \/ exists label,
       In label subdomains
       /\ In e (trace (processSubdomain NewRecord
                         (fullSubdomain domain label) myIP zone client
                         allowed test)).
Proof.
  induction subdomains as [|label rest IH]; [intros []|].
  rewrite processSubdomains_cons.
  destruct (processSubdomain NewRecord (fullSubdomain domain label) myIP zone
              client allowed test) as [[[]|msg] t] eqn:E.
  - destruct (processSubdomains NewRecord domain myIP zone client allowed
                test delay rest) as [r t'].
    unfold trace, snd in *. intros HI.
    apply in_app_or in HI as [HI|[HI|HI]].
    + right. exists label. rewrite E. simpl; auto.
    + auto.
    + destruct (IH HI) as [->|(l & Hl & HI')]; [auto|].
      right. exists l. simpl; auto.
  - unfold trace, snd. intros HI. right. exists label. rewrite E. simpl; auto.
Qed.

(** In test mode a run of [processSubdomain] writes nothing. *)
Lemma processSubdomain_test_no_writes (domain currentIP zone : string)
    (client : ns1.Client) (countries : list string) (e : Event) :
  In e (trace (processSubdomain NewRecord domain currentIP zone client
                 countries true)) ->
  isMutating e = false.
Proof.
  destruct (ns1.Records_Get client zone domain "A") as [record|ge] eqn:HG.
  - destruct (Answers record) as [|[a|] rest] eqn:HA;
      [| |rewrite ?(processSubdomain_nil_answer NewRecord domain currentIP zone client countries true
                      record rest HG HA) in *;
          intros [H|[]]; subst e; reflexivity].
    + rewrite (processSubdomain_no_answers NewRecord domain currentIP zone
                 client countries true record HG HA).
      intros [H|[H|[]]]; subst e; reflexivity.
    + destruct (processSubdomain_found NewRecord domain currentIP zone client
                  countries true record a rest HG HA)
        as (im & tIP & su & ctu & tM & _ & H1 & _ & H2 & ->).
      unfold trace, snd. intros HI.
      apply In_found in HI as [->|[HI|HI]]; try assumption.
      * reflexivity.
      * destruct e as [| | |[]|]; simpl in HI; try discriminate; reflexivity.
      * destruct (negb im || su); [|destruct HI].
        destruct HI as [H|[H|[]]]; subst e; reflexivity.
  - rewrite (processSubdomain_missing NewRecord domain currentIP zone client
               countries true ge HG).
    intros [H|[H|[]]]; subst e; reflexivity.
Qed.

(** The record of a create call of [processSubdomain]. *)
Lemma processSubdomain_created (domain currentIP zone : string)
    (client : ns1.Client) (countries : list string) (test : bool)
    (r : Record_) :
  In (EvCreate r)
    (trace (processSubdomain NewRecord domain currentIP zone client countries
              test)) ->
  r = setAnswers (NewRecord zone domain "A")
        [Some {| Rdata := [currentIP];
            Meta := Some
              (if Nat.ltb 0 (List.length countries) then
                 {| Up := IBool true; Country := IStrings countries |}
               else {| Up := IBool true; Country := INil |}) |}].
Proof.
  destruct (ns1.Records_Get client zone domain "A") as [record|ge] eqn:HG.
  - destruct (Answers record) as [|[a|] rest] eqn:HA;
      [| |rewrite ?(processSubdomain_nil_answer NewRecord domain currentIP zone client countries test
                      record rest HG HA) in *;
          intros [H|[]]; discriminate H].
    + rewrite (processSubdomain_no_answers NewRecord domain currentIP zone
                 client countries test record HG HA).
      intros [H|[H|[]]]; discriminate H.
    + destruct (processSubdomain_found NewRecord domain currentIP zone client
                  countries test record a rest HG HA)
        as (im & tIP & su & ctu & tM & _ & H1 & _ & H2 & ->).
      unfold trace, snd. intros HI.
      apply In_found in HI as [HI|[HI|HI]]; try assumption;
        try discriminate HI.
      destruct (negb im || su); [|destruct HI].
      destruct test; cbv zeta in HI.
      * destruct HI as [H|[H|[]]]; discriminate H.
      * destruct (ns1.Records_Update client _);
          destruct HI as [H|[H|[H|[]]]]; discriminate H.
  - rewrite (processSubdomain_missing NewRecord domain currentIP zone client
               countries test ge HG).
    cbv zeta. unfold trace, snd. destruct test.
    + intros [H|[H|[]]]; discriminate H.
    + destruct (ns1.Records_Create client _);
        intros [H|[H|[H|[]]]]; try discriminate H;
        inversion H; reflexivity.
Qed.

(** The lookup of a run of [processSubdomain]. *)
Lemma processSubdomain_get_event (domain currentIP zone : string)
    (client : ns1.Client) (countries : list string) (test : bool)
    (z d ty : string) :
  In (EvGet z d ty)
    (trace (processSubdomain NewRecord domain currentIP zone client countries
              test)) ->
  z = zone /\ d = domain /\ ty = "A".
Proof.
  destruct (processSubdomain_lookup NewRecord domain currentIP zone client
              countries test) as (t & -> & Ht).
  intros [HI|HI]; [inversion HI; auto|].
  rewrite forallb_forall in Ht. specialize (Ht _ HI). discriminate Ht.
Qed.

(** How a loop over the subdomains can end: normally, or in the panic on
    the index; when every record that is found has an answer, normally. *)
Lemma processSubdomains_outcome (domain myIP zone : string)
    (client : ns1.Client) (allowed : list string) (test : bool) (delay : Z)
    (subdomains : list string) :
  (forall msg,
     outcome (processSubdomains NewRecord domain myIP zone client allowed
                test delay subdomains) = Panic msg ->
     msg = "runtime error: index out of range [0] with length 0"
     \/ msg = nilDereference)
  /\ ((forall z d record,
         ns1.Records_Get client z d "A" = inl record ->
         exists a more, Answers record = Some a :: more) ->
      outcome (processSubdomains NewRecord domain myIP zone client allowed
                 test delay subdomains) = Ok tt).
Proof.
  induction subdomains as [|label rest [IH1 IH2]].
  - split; [discriminate|reflexivity].
  - rewrite processSubdomains_cons.
    pose proof (processSubdomain_outcome (fullSubdomain domain label) myIP
                  zone client allowed test) as HO.
    destruct (processSubdomain NewRecord (fullSubdomain domain label) myIP
                zone client allowed test) as [[[]|msg'] t].
    + destruct (processSubdomains NewRecord domain myIP zone client allowed
                  test delay rest) as [r t'].
      unfold outcome, fst in *. split; [exact IH1|exact IH2].
    + unfold outcome, fst in *. split.
      * intros msg H. inversion H; subst msg'.
        destruct (ns1.Records_Get client zone (fullSubdomain domain label)
                    "A") as [record|]; [|discriminate HO].
        destruct (Answers record) as [|[a|] more];
          inversion HO; auto.
      * intros HA.
        destruct (ns1.Records_Get client zone (fullSubdomain domain label)
                    "A") as [record|] eqn:HG; [|discriminate HO].
        destruct (HA _ _ _ HG) as (a & more & HS). rewrite HS in HO.
        discriminate HO.
Qed.

End MoreFacts.

(** ** Further properties of the engine *)

Section MoreProperties.

Variable NewRecord : string -> string -> string -> Record_.

(** X1. [sliceFromInterface] succeeds exactly on a [[]interface{}] whose
    items are all strings, and then returns those strings in order: a
    list of strings put into that form is read back unchanged. *)
Theorem sliceFromInterface_roundtrip (i : iface) (l : list string) :
  (snd (sliceFromInterface i) = None
   <-> exists l', i = ISlice (map IString l'))
  /\ sliceFromInterface (ISlice (map IString l)) = (l, None)
  /\ (sliceFromInterface i = (l, None) -> i = ISlice (map IString l)).
Proof.
  split; [|split].
  - split.
    + destruct (sliceFromInterface i) as [r e] eqn:E. simpl. intros ->.
      exists r. now apply sliceFromInterface_ok.
    + intros [l' ->]. now rewrite sliceFromInterface_strings.
  - apply sliceFromInterface_strings.
  - apply sliceFromInterface_ok.
Qed.

(** X2. When an item of the list is not a string, [sliceFromInterface]
    fails with an error that names the index of the first such item and
    its dynamic type, and the slice it returns is empty: the strings read
    before the failure are dropped. A value that is no [[]interface{}] at
    all fails with the fixed message. *)
Theorem sliceFromInterface_first_bad_item
    (good : list string) (item : iface) (rest : list iface) :
  (forall s, item <> IString s) ->
  sliceFromInterface (ISlice (map IString good ++ item :: rest))
  = ([], Some ("element at index " ++ itoa (List.length good)
                 ++ " is not a string (type: " ++ typeName item ++ ")"))
  /\ forall i, (forall l, i <> ISlice l) ->
       sliceFromInterface i = ([], Some "dunno how we got here").
Proof.
  intros HN. split.
  - unfold sliceFromInterface. rewrite (convertItems_bad good item rest 0 HN).
    reflexivity.
  - intros i Hi. destruct i; try reflexivity. destruct (Hi l eq_refl).
Qed.

(** X3. On a record, [checkIP] never returns an error, and it panics in
    one case only: when the first answer of the record is a nil pointer
    it panics on reading through it, before it writes anything. In every
    other case it returns normally, writes exactly one log line, and
    answers true
    exactly when the record has a first answer whose first rdata is the
    current IP; later answers and later rdata entries are not looked
    at. *)
Theorem checkIP_first_rdata_only (myIP : string) (record : Record_) :
  (forall rest,
     Answers record = None :: rest ->
     checkIP myIP record = (Panic nilDereference, []))
  /\ ((forall rest, Answers record <> None :: rest) ->
      exists ipMatches m,
        checkIP myIP record = (Ok (ipMatches, None), [EvLog m])
        /\ (ipMatches = true
            <-> exists a rest more,
                  Answers record = Some a :: rest
                  /\ Rdata a = myIP :: more)).
Proof.
  split; [intros rest; apply checkIP_nil|].
  intros HN.
  destruct (checkIP myIP record) as [r t] eqn:E.
  assert (H : exists b m, (r, t) = (Ok (b, None), [EvLog m])).
  { rewrite <- E. unfold checkIP.
    destruct (Answers record) as [|[a|] rest]; simpl;
      [eauto| |destruct (HN rest eq_refl)].
    destruct (Rdata a) as [|remoteIP more]; simpl; [eauto|].
    destruct (String.eqb myIP remoteIP); simpl; eauto. }
  destruct H as (b & m & H). inversion H; subst. exists b, m.
  split; [reflexivity|]. split.
  - intros ->. now apply (checkIP_true_iff myIP record [EvLog m]).
  - intros HX. destruct b; [reflexivity|].
    assert (HT : checkIP myIP record
                 = (Ok (true, None),
                    [EvLog (LogIPMatches myIP (Domain record))])).
    { apply checkIP_true_iff. auto. }
    rewrite E in HT. discriminate HT.
Qed.

(** X4. The metadata differ reports that no update is needed exactly when
    the answer has metadata whose [up] is the boolean true and whose
    countries are a well-formed list equal to the desired list, element by
    element; it then returns the empty list and logs nothing. In every
    other case it asks for an update. *)
Theorem processAnswer_no_update_iff (answer : Answer) (desired : list string) :
  (Meta answer
   = Some {| Up := IBool true; Country := ISlice (map IString desired) |}
   -> processAnswer answer desired = (Ok (false, []), []))
  /\ (Meta answer
      <> Some {| Up := IBool true; Country := ISlice (map IString desired) |}
      -> exists l, outcome (processAnswer answer desired) = Ok (true, l)).
Proof.
  split.
  - intros HM. apply processAnswer_false_iff. auto.
  - intros HN.
    destruct (processAnswer_returns answer desired) as ([b l] & t & HP & _).
    rewrite HP. destruct b; [exists l; reflexivity|].
    apply processAnswer_false_iff in HP. destruct HP as [HM _].
    contradiction.
Qed.

(** X5. When only the IP differs: on a record that exists, whose first
    answer has metadata already in order ([up] true, the desired
    countries) but whose first rdata is not the current IP, the run
    decides to update, and the record it writes carries an empty country
    list, not the desired one: the list comes from the differ, which
    leaves it empty when it finds nothing to change. *)
Theorem ip_change_writes_empty_countries
    (domain currentIP zone : string) (client : ns1.Client)
    (desired : list string) (record : Record_)
    (a : Answer) (rest : list (option Answer)) :
  ns1.Records_Get client zone domain "A" = inl record ->
  Answers record = Some a :: rest ->
  Meta a
  = Some {| Up := IBool true; Country := ISlice (map IString desired) |} ->
  (forall more, Rdata a <> currentIP :: more) ->
  mutatingCalls
    (trace (processSubdomain NewRecord domain currentIP zone client desired
              false))
  = [EvUpdate (setAnswers record [Some (freshAnswer currentIP [])])]
  /\ decision
       (trace (processSubdomain NewRecord domain currentIP zone client
                 desired true))
     = Update.
Proof.
  intros HG HA HM HR.
  assert (HP : processAnswer a desired = (Ok (false, []), [])).
  { apply processAnswer_false_iff. auto. }
  assert (HI : forall im tIP,
             checkIP currentIP record = (Ok (im, None), tIP) -> im = false).
  { intros [|] tIP HC; [|reflexivity].
    apply checkIP_true_iff in HC as [(a' & rest' & more & HA' & HR') _].
    rewrite HA in HA'. inversion HA'; subst. destruct (HR more HR'). }
  split.
  - destruct (processSubdomain_found NewRecord domain currentIP zone client
                desired false record a rest HG HA)
      as (im & tIP & su & ctu & tM & HC & H1 & HP' & H2 & ->).
    rewrite HP in HP'. inversion HP'; subst. rewrite (HI _ _ HC).
    unfold trace, snd. rewrite mutatingCalls_found by assumption.
    simpl. destruct (ns1.Records_Update client _); reflexivity.
  - destruct (processSubdomain_found NewRecord domain currentIP zone client
                desired true record a rest HG HA)
      as (im & tIP & su & ctu & tM & HC & H1 & HP' & H2 & ->).
    rewrite HP in HP'. inversion HP'; subst. rewrite (HI _ _ HC).
    unfold trace, snd. rewrite decision_found by assumption. reflexivity.
Qed.

(** X6. How a run of [processSubdomain] ends: it returns normally in every
    case but two, both on a lookup that succeeds: a record without
    answers, where it panics on the index, and a record whose first answer
    is a nil pointer, where it panics on reading through it. A failed
    lookup, a failed write, missing or malformed metadata and empty rdata
    never make it panic. *)
Theorem processSubdomain_panic_cases
    (domain currentIP zone : string) (client : ns1.Client)
    (countries : list string) (test : bool) :
  outcome (processSubdomain NewRecord domain currentIP zone client countries
             test)
  = match ns1.Records_Get client zone domain "A" with
    | inl record =>
        match Answers record with
        | [] => Panic "runtime error: index out of range [0] with length 0"
        | None :: _ => Panic nilDereference
        | Some _ :: _ => Ok tt
        end
    | inr _ => Ok tt
    end.
Proof. apply processSubdomain_outcome. Qed.

(** X7. A write the provider refuses does not stop the run: outside test
    mode, when the create or update call fails, the run still returns
    normally, its last line reports the failure with the subdomain and the
    cause, and it writes no line saying the record was created or
    updated. *)
Theorem write_failure_is_logged
    (domain currentIP zone : string) (client : ns1.Client)
    (countries : list string) (e : error) :
  (forall r, ns1.Records_Create client r = Some e) ->
  (forall r, ns1.Records_Update client r = inr e) ->
  let run :=
    processSubdomain NewRecord domain currentIP zone client countries false in
  (decision (trace run) = Create ->
     outcome run = Ok tt
     /\ exists t,
          trace run
          = (t ++ [EvLog (LogCreateFailed domain
                            ("failed to create record: " ++ e)%string)])%list)
  /\ (decision (trace run) = Update ->
        outcome run = Ok tt
        /\ exists t,
             trace run
             = (t ++ [EvLog (LogUpdateFailed domain
                               ("failed to update record: " ++ e)%string)])%list)
  /\ (forall d, ~ In (EvLog (LogUpdated d)) (trace run))
  /\ (forall s i, ~ In (EvLog (LogCreated s i)) (trace run)).
Proof.
  intros HCr HUp run. unfold run. clear run.
  destruct (ns1.Records_Get client zone domain "A") as [record|e'] eqn:HG.
  - destruct (Answers record) as [|[a|] rest] eqn:HA;
      [| |rewrite ?(processSubdomain_nil_answer NewRecord domain currentIP zone client countries false
                      record rest HG HA) in *;
          (split; [discriminate|]); (split; [discriminate|]); split;
            [intros d [H|[]]|intros s i [H|[]]]; discriminate H].
    + rewrite (processSubdomain_no_answers NewRecord domain currentIP zone
                 client countries false record HG HA).
      split; [discriminate|]. split; [discriminate|]. split.
      * intros d [H|[H|[]]]; discriminate H.
      * intros s i [H|[H|[]]]; discriminate H.
    + destruct (processSubdomain_found NewRecord domain currentIP zone client
                  countries false record a rest HG HA)
        as (im & tIP & su & ctu & tM & HC & H1 & HP & H2 & ->).
      pose proof (checkIP_diagnostic currentIP record) as D1.
      pose proof (processAnswer_diagnostic a countries) as D2.
      rewrite HC in D1. rewrite HP in D2. unfold trace, snd in D1, D2.
      unfold trace, outcome, snd, fst. rewrite decision_found by assumption.
      cbv zeta. rewrite HUp.
      assert (HL : forall ev,
                In ev
                  (EvGet zone domain "A" :: tIP ++ tM ++
                     (if negb im || su
                      then
                        [EvLog LogShouldUpdate;
                         EvUpdate
                           (setAnswers record [Some (freshAnswer currentIP ctu)]);
                         EvLog (LogUpdateFailed domain
                                  ("failed to update record: " ++ e)%string)]
                      else []))%list ->
                (forall d, ev <> EvLog (LogUpdated d))
                /\ (forall s i, ev <> EvLog (LogCreated s i))).
      { intros ev [HI|HI]; [subst ev; split; discriminate|].
        apply in_app_or in HI as [HI|HI];
          [apply (In_diagnostic _ _ D1) in HI;
           split; intros; intros ->; discriminate HI|].
        apply in_app_or in HI as [HI|HI];
          [apply (In_diagnostic _ _ D2) in HI;
           split; intros; intros ->; discriminate HI|].
        destruct (negb im || su); [|destruct HI].
        destruct HI as [HI|[HI|[HI|[]]]]; subst ev; split; discriminate. }
      split; [|split; [|split]].
      * destruct (negb im || su); discriminate.
      * destruct (negb im || su); [|discriminate]. intros _.
        split; [reflexivity|].
        exists (EvGet zone domain "A" :: tIP ++ tM ++
                  [EvLog LogShouldUpdate;
                   EvUpdate (setAnswers record [Some (freshAnswer currentIP ctu)])])%list.
        simpl. rewrite <- !app_assoc. reflexivity.
      * intros d HI. apply HL in HI. destruct HI as [HI _]. now apply (HI d).
      * intros s i HI. apply HL in HI. destruct HI as [_ HI].
        now apply (HI s i).
  - rewrite (processSubdomain_missing NewRecord domain currentIP zone client
               countries false e' HG).
    cbv zeta. rewrite HCr. unfold trace, outcome, snd, fst.
    split; [|split; [|split]].
    + intros _. split; [reflexivity|]. eexists [_; _]. reflexivity.
    + discriminate.
    + intros d [H|[H|[H|[]]]]; discriminate H.
    + intros s i [H|[H|[H|[]]]]; discriminate H.
Qed.

(** X8. A run leaves the record alone in exactly one situation: it returns
    normally without deciding a create or an update if and only if the
    lookup found a record whose first answer has the current IP as its
    first rdata and metadata with [up] true and the desired countries in
    order. The run then consists of the lookup and the line reporting the
    matching IP. *)
Theorem processSubdomain_noop_iff
    (domain currentIP zone : string) (client : ns1.Client)
    (desired : list string) (test : bool) :
  let run :=
    processSubdomain NewRecord domain currentIP zone client desired test in
  (outcome run = Ok tt /\ decision (trace run) = NoOp
   <-> exists record a rest more,
         ns1.Records_Get client zone domain "A" = inl record
         /\ Answers record = Some a :: rest
         /\ Rdata a = currentIP :: more
         /\ Meta a
            = Some {| Up := IBool true;
                      Country := ISlice (map IString desired) |})
  /\ (outcome run = Ok tt -> decision (trace run) = NoOp ->
      exists record,
        ns1.Records_Get client zone domain "A" = inl record
        /\ trace run
           = [EvGet zone domain "A";
              EvLog (LogIPMatches currentIP (Domain record))]).
Proof.
  intros run. unfold run. clear run.
  assert (HF :
    outcome (processSubdomain NewRecord domain currentIP zone client desired
               test) = Ok tt ->
    decision (trace (processSubdomain NewRecord domain currentIP zone client
                       desired test)) = NoOp ->
    exists record a rest more,
      ns1.Records_Get client zone domain "A" = inl record
      /\ Answers record = Some a :: rest
      /\ Rdata a = currentIP :: more
      /\ Meta a
         = Some {| Up := IBool true;
                   Country := ISlice (map IString desired) |}).
  { destruct (ns1.Records_Get client zone domain "A") as [record|e] eqn:HG.
    - destruct (Answers record) as [|[a|] rest] eqn:HA;
        [| |rewrite ?(processSubdomain_nil_answer NewRecord domain currentIP zone client desired test
                        record rest HG HA) in *;
            discriminate].
      + rewrite (processSubdomain_no_answers NewRecord domain currentIP zone
                   client desired test record HG HA). discriminate.
      + destruct (processSubdomain_found NewRecord domain currentIP zone
                    client desired test record a rest HG HA)
          as (im & tIP & su & ctu & tM & HC & H1 & HP & H2 & ->).
        unfold trace, snd. rewrite decision_found by assumption.
        intros _ HD.
        destruct im, su; simpl in HD;
          try (destruct test; [discriminate HD|];
               destruct (ns1.Records_Update client _); discriminate HD).
        apply checkIP_true_iff in HC as [(a' & rest' & more & HA' & HR) _].
        apply processAnswer_false_iff in HP as [HM _].
        rewrite HA in HA'. inversion HA'; subst a' rest'.
        exists record, a, rest, more. auto.
    - rewrite (processSubdomain_missing NewRecord domain currentIP zone
                 client desired test e HG).
      cbv zeta. intros _. unfold trace, snd.
      destruct test; [discriminate|].
      destruct (ns1.Records_Create client _); discriminate. }
  assert (HB : forall record a rest more,
    ns1.Records_Get client zone domain "A" = inl record ->
    Answers record = Some a :: rest ->
    Rdata a = currentIP :: more ->
    Meta a
    = Some {| Up := IBool true; Country := ISlice (map IString desired) |} ->
    processSubdomain NewRecord domain currentIP zone client desired test
    = (Ok tt, [EvGet zone domain "A";
               EvLog (LogIPMatches currentIP (Domain record))])).
  { intros record a rest more HG HA HR HM.
    apply (processSubdomain_in_sync NewRecord domain currentIP zone client
             desired more test record rest HG).
    rewrite HA. destruct a as [rd mt]. simpl in HR, HM. subst. reflexivity. }
  split.
  - split.
    + intros [HO HD]. now apply HF.
    + intros (record & a & rest & more & HG & HA & HR & HM).
      rewrite (HB record a rest more HG HA HR HM). split; reflexivity.
  - intros HO HD.
    destruct (HF HO HD) as (record & a & rest & more & HG & HA & HR & HM).
    exists record. split; [exact HG|].
    now rewrite (HB record a rest more HG HA HR HM).
Qed.

(** X9. A subdomain whose record has no answers ends the loop over the
    host's subdomains: the run panics there, and the subdomains after it
    are neither looked up nor waited for. *)
Theorem processSubdomains_stops_at_panic
    (domain myIP zone : string) (client : ns1.Client)
    (allowed : list string) (test : bool) (delay : Z)
    (label : string) (rest : list string) (record : Record_) :
  ns1.Records_Get client zone (fullSubdomain domain label) "A" = inl record ->
  Answers record = [] ->
  processSubdomains NewRecord domain myIP zone client allowed test delay
    (label :: rest)
  = (Panic "runtime error: index out of range [0] with length 0",
     [EvGet zone (fullSubdomain domain label) "A";
      EvLog (LogNoAnswers myIP (Domain record))]).
Proof.
  intros HG HA. simpl processSubdomains.
  rewrite (processSubdomain_no_answers NewRecord (fullSubdomain domain label)
             myIP zone client allowed test record HG HA).
  reflexivity.
Qed.

(** X10. A loop over a host's subdomains that returns normally has looked
    up every subdomain exactly once, by its full name and in the order of
    the configuration, and has slept the configured delay once per
    subdomain, the last one included. *)
Theorem processSubdomains_lookups_and_sleeps
    (domain myIP zone : string) (client : ns1.Client)
    (allowed : list string) (test : bool) (delay : Z)
    (subdomains : list string) :
  let run :=
    processSubdomains NewRecord domain myIP zone client allowed test delay
      subdomains in
  outcome run = Ok tt ->
  filter isGet (trace run)
  = map (fun label => EvGet zone (fullSubdomain domain label) "A") subdomains
  /\ filter isSleep (trace run)
     = repeat (EvSleep delay) (List.length subdomains).
Proof.
  induction subdomains as [|label rest IH]; [split; reflexivity|].
  cbv zeta in IH |- *. rewrite processSubdomains_cons.
  pose proof (processSubdomain_gets NewRecord (fullSubdomain domain label)
                myIP zone client allowed test) as HGs.
  pose proof (processSubdomain_no_sleep NewRecord (fullSubdomain domain label)
                myIP zone client allowed test) as HSl.
  destruct (processSubdomain NewRecord (fullSubdomain domain label) myIP zone
              client allowed test) as [[[]|msg] t]; [|discriminate].
  destruct (processSubdomains NewRecord domain myIP zone client allowed test
              delay rest) as [r t'].
  unfold outcome, trace, fst, snd in *.
  intros HO. destruct (IH HO) as [IH1 IH2].
  rewrite !filter_app, HGs, HSl. simpl.
  split; f_equal; assumption.
Qed.

End MoreProperties.

(** ** Facts about the outer layer *)

Section MainFacts.

Variable NewRecord : string -> string -> string -> Record_.
Variable world : World.

Lemma bindW_eq {A B : Type} (m : W A) (f : A -> W B) (k : nat) :
  bindW m f k
  = match m k with
    | (Ok a, t, k') =>
        (outcomeW (f a k'), (t ++ traceW (f a k'))%list, snd (f a k'))
    | (Panic msg, t, k') => (Panic msg, t, k')
    end.
Proof.
  unfold bindW. destruct (m k) as [[[a|msg] t] k']; [|reflexivity].
  destruct (f a k') as [[r t'] k'']. reflexivity.
Qed.

Lemma In_bindW {A B : Type} (e : MainEvent) (m : W A) (f : A -> W B)
    (k : nat) :
  In e (traceW (bindW m f k)) ->
  In e (traceW (m k))
  \/ exists a, outcomeW (m k) = Ok a /\ In e (traceW (f a (snd (m k)))).
Proof.
  rewrite bindW_eq. destruct (m k) as [[[a|msg] t] k']; simpl; [|auto].
  unfold traceW at 1. simpl. intros HI.
  apply in_app_or in HI as [HI|HI]; [auto|]. right. exists a. auto.
Qed.

Lemma indexW_nth {A : Type} (s : list A) (i : nat) (a : A) (k : nat) :
  nth_error s i = Some a -> indexW s i k = (Ok a, [], k).
Proof. intros H. unfold indexW, liftM, index. rewrite H. reflexivity. Qed.

(** The run of [linodeAPICheck]. *)
Lemma linodeAPICheck_run (h : Host) (k : nat) :
  linodeAPICheck world h k
  = (match linodego.GetInstance (Client h) (fst (Atoi world (HostKey h)))
     with
     | inr instanceErr =>
         Ok ("", Some ("linode API returned error " ++ instanceErr))
     | inl res =>
         match linodego.IPv4 res with
         | [] => Ok ("", Some "no IPv4 addresses on host")
         | Some ip0 :: _ => Ok (ip0, None)
         | None :: _ => Panic nilDereference
         end
     end,
     [EvMainLog LogCheckingLinode;
      EvGetInstance (fst (Atoi world (HostKey h)))],
     k).
Proof.
  unfold linodeAPICheck. rewrite !bindW_eq. simpl.
  destruct (linodego.GetInstance (Client h) _) as [res|e]; [|reflexivity].
  destruct (linodego.IPv4 res) as [|[ip0|] more]; reflexivity.
Qed.

(** The URL [externalWAN] picks at the k-th draw. *)
Lemma pick_in_resources (k : nat) :
  exists url,
    In url resources
    /\ nth_error resources (Nat.modulo (draw world k) (List.length resources))
       = Some url.
Proof.
  assert (H : Nat.modulo (draw world k) (List.length resources)
              < List.length resources).
  { apply Nat.mod_upper_bound. discriminate. }
  destruct (nth_error resources
              (Nat.modulo (draw world k) (List.length resources)))
    as [url|] eqn:E.
  - exists url. split; [|reflexivity]. now apply nth_error_In in E.
  - apply nth_error_None in E. apply Nat.lt_nge in H. contradiction.
Qed.

(** The run of [externalWAN]. *)
Lemma externalWAN_run (timeout : Z) (k : nat) :
  exists url,
    In url resources
    /\ externalWAN world timeout k
       = (Ok match http_Get world url timeout with
             | inr ipCheckErr =>
                 ("", Some ("failed to get external IP: " ++ ipCheckErr))
             | inl resp =>
                 if Z.eqb (http.StatusCode resp) 200 then
                   match decodeIP world (http.Body resp) with
                   | inr decoderErr =>
                       ("", Some ("failed to decode response: "
                                    ++ decoderErr))
                   | inl ip => (TrimSpace world ip, None)
                   end
                 else
                   ("", Some ("external service returned status: "
                                ++ itoaZ (http.StatusCode resp)))
             end,
          [EvMainLog (LogCheckingExternal (urlHost url));
           EvHttpGet url timeout],
          S k).
Proof.
  destruct (pick_in_resources k) as (url & HI & HN).
  exists url. split; [exact HI|].
  unfold externalWAN, bindW, Intn. rewrite (indexW_nth _ _ url (S k) HN).
  simpl.
  destruct (http_Get world url timeout) as [resp|e]; [|reflexivity].
  unfold http.StatusOK.
  destruct (Z.eqb (http.StatusCode resp) 200); cbn [negb]; [|reflexivity].
  destruct (decodeIP world (http.Body resp)); reflexivity.
Qed.

(** [getIP] makes at most one remote call and none to NS1; when it
    panics it is on reading through a nil pointer. *)
Lemma getIP_run (host : Host) (timeout : Z) (k : nat) :
  exists r t k',
    getIP world host timeout k = (r, t, k')
    /\ forallb (fun e => negb (isEngine e)) t = true
    /\ List.length (filter isRemote t) <= 1
    /\ (forall msg, r = Panic msg -> msg = nilDereference).
Proof.
  unfold getIP.
  destruct (String.eqb (Method host) "LinodeAPI").
  - rewrite linodeAPICheck_run. do 3 eexists. split; [reflexivity|].
    split; [reflexivity|]. split; [simpl; auto|].
    intros msg.
    destruct (linodego.GetInstance (Client host) _) as [res|e];
      [|discriminate].
    destruct (linodego.IPv4 res) as [|[ip0|] more]; try discriminate.
    intros H; inversion H; reflexivity.
  - destruct (String.eqb (Method host) "external").
    + destruct (externalWAN_run timeout k) as (url & _ & ->).
      do 3 eexists. split; [reflexivity|].
      split; [reflexivity|]. split; [simpl; auto|]. discriminate.
    + do 3 eexists. split; [reflexivity|].
      split; [reflexivity|]. split; [simpl; auto|]. discriminate.
Qed.

(** [getIP] returns when the first address of the Linode instance, if
    that is where it looks, is not a nil pointer. *)
Lemma getIP_returns (host : Host) (timeout : Z) (k : nat) :
  (Method host = "LinodeAPI" ->
   forall inst rest,
     linodego.GetInstance (Client host) (fst (Atoi world (HostKey host)))
     = inl inst ->
     linodego.IPv4 inst <> None :: rest) ->
  exists ip err t k', getIP world host timeout k = (Ok (ip, err), t, k').
Proof.
  intros HN. unfold getIP.
  destruct (String.eqb_spec (Method host) "LinodeAPI") as [HM|HM].
  - specialize (HN HM). rewrite linodeAPICheck_run.
    destruct (linodego.GetInstance (Client host) _) as [res|e] eqn:HG;
      [|do 4 eexists; reflexivity].
    destruct (linodego.IPv4 res) as [|[ip0|] more] eqn:HI;
      try (do 4 eexists; reflexivity).
    destruct (HN res more eq_refl HI).
  - destruct (String.eqb (Method host) "external").
    + destruct (externalWAN_run timeout k) as (url & _ & ->).
      destruct (match http_Get world url timeout with
                | inl _ => _ | inr _ => _ end) as [ip err].
      do 4 eexists; reflexivity.
    + do 4 eexists; reflexivity.
Qed.

(** The host [processHost] resolves the IP of: the host itself, with its
    Linode client set up when its method is LinodeAPI. *)
Lemma configured_host_fields (host : Host) (dConf : DomainConfig) :
  let host' := configuredHost world dConf host in
  Name host' = Name host /\ Method host' = Method host
  /\ Subdomains host' = Subdomains host.
Proof.
  unfold configuredHost.
  destruct (String.eqb (Method host) "LinodeAPI"); simpl; auto.
Qed.

(** The run of [processHost], in terms of the runs of [getIP] and
    [processSubdomains]. *)
Lemma processHost_run (domain : string) (dConf : DomainConfig)
    (zone : ns1zone.Zone_) (client : ns1rest.Client)
    (allowed : list string) (host : Host) (k : nat) :
  exists r t k',
    getIP world (configuredHost world dConf host) (Timeout dConf) k
    = (r, t, k')
    /\ forallb (fun e => negb (isEngine e)) t = true
    /\ (forall msg, r = Panic msg -> msg = nilDereference)
    /\ processHost NewRecord world domain dConf zone client allowed host k
       = match r with
         | Panic msg =>
             (Panic msg, EvMainLog (LogCheckingHost (Name host)) :: t, k')
         | Ok (ip, Some e) =>
             (Ok tt,
              (EvMainLog (LogCheckingHost (Name host)) :: t
                 ++ [EvMainLog (LogIPFailed (Name host) e)])%list,
              k')
         | Ok (ip, None) =>
             let run :=
               processSubdomains NewRecord domain ip (ns1zone.Zone zone)
                 (ns1rest.Records client) allowed (Test dConf) (Delay dConf)
                 (Subdomains host) in
             (outcome run,
              (EvMainLog (LogCheckingHost (Name host)) :: t
                 ++ map EvEngine (trace run)
                 ++ match outcome run with
                    | Ok _ => [EvStdout ""]
                    | Panic _ => []
                    end)%list,
              k')
         end.
Proof.
  destruct (configured_host_fields host dConf) as (HN & _ & HS).
  cbv zeta in HN, HS.
  destruct (getIP_run (configuredHost world dConf host) (Timeout dConf) k)
    as (r & t & k' & HG & HE & _ & HP).
  exists r, t, k'. repeat (split; [assumption|]).
  unfold processHost, bindW, logW, emitW.
  fold (configuredHost world dConf host). rewrite HG, HN, HS.
  destruct r as [[ip [e|]]|msg]; [reflexivity| |reflexivity].
  cbv zeta. unfold liftM, Println, emitW.
  destruct (processSubdomains NewRecord domain ip (ns1zone.Zone zone)
              (ns1rest.Records client) allowed (Test dConf) (Delay dConf)
              (Subdomains host)) as [[[]|msg] te]; simpl.
  - reflexivity.
  - rewrite app_nil_r. reflexivity.
Qed.

(** Where the events of the engine in a run of [processHost] come from:
    the loop over the host's subdomains, run with the address [getIP]
    resolved for the host. *)
Lemma processHost_engine (domain : string) (dConf : DomainConfig)
    (zone : ns1zone.Zone_) (client : ns1rest.Client)
    (allowed : list string) (host : Host) (k : nat) (e : Event) :
  In (EvEngine e)
    (traceW (processHost NewRecord world domain dConf zone client allowed
               host k)) ->
  exists ip,
    resolves world dConf host ip
    /\ In e (trace (processSubdomains NewRecord domain ip (ns1zone.Zone zone)
                      (ns1rest.Records client) allowed (Test dConf)
                      (Delay dConf) (Subdomains host))).
Proof.
  destruct (processHost_run domain dConf zone client allowed host k)
    as (r & t & k' & HG & HE & _ & ->).
  assert (HT : ~ In (EvEngine e) t).
  { intros HI. rewrite forallb_forall in HE. specialize (HE _ HI).
    discriminate HE. }
  destruct r as [[ip [er|]]|msg]; unfold traceW; simpl.
  - intros [HI|HI]; [discriminate HI|].
    apply in_app_or in HI as [HI|[HI|[]]]; [contradiction|discriminate HI].
  - intros [HI|HI]; [discriminate HI|].
    apply in_app_or in HI as [HI|HI]; [contradiction|].
    apply in_app_or in HI as [HI|HI].
    + apply in_map_iff in HI as (e' & He & HI). inversion He; subst.
      exists ip. split; [|exact HI]. exists k, t, k'. exact HG.
    + destruct (outcome _); [destruct HI as [HI|[]]; discriminate HI|].
      destruct HI.
  - intros [HI|HI]; [discriminate HI|contradiction].
Qed.

Lemma hostLoop_engine (domain : string) (dConf : DomainConfig)
    (zone : ns1zone.Zone_) (client : ns1rest.Client)
    (allowed : list string) (hosts : list Host) (k : nat) (e : Event) :
  In (EvEngine e)
    (traceW (hostLoop NewRecord world domain dConf zone client allowed hosts
               k)) ->
  exists host ip,
    In host hosts
    /\ resolves world dConf host ip
    /\ In e (trace (processSubdomains NewRecord domain ip (ns1zone.Zone zone)
                      (ns1rest.Records client) allowed (Test dConf)
                      (Delay dConf) (Subdomains host))).
Proof.
  revert k; induction hosts as [|host rest IH]; intros k; simpl hostLoop.
  - intros [].
  - intros HI. apply In_bindW in HI as [HI|(a & _ & HI)].
    + apply processHost_engine in HI as (ip & HR & HI).
      exists host, ip. simpl; auto.
    + apply IH in HI as (h & ip & Hh & HR & HI). exists h, ip. simpl; auto.
Qed.

(** The run of [processDomain], in terms of the run of [hostLoop]. *)
Lemma processDomain_run (domain : string) (dConf : DomainConfig) (k : nat) :
  let client :=
    ns1_NewClient world (NS1Config.APIKey (NS1 dConf))
      (if Z.ltb (Timeout dConf) 1 then 30%Z else Timeout dConf)
      (Debug dConf) in
  processDomain NewRecord world domain dConf k
  = match ns1rest.Zones_Get client domain true with
    | inr zoneCheckErr =>
        (Ok tt,
         [EvMainLog (LogProcessingDomain domain); EvZonesGet domain true;
          EvMainLog (LogZoneFailed domain zoneCheckErr)],
         k)
    | inl zone =>
        let r :=
          hostLoop NewRecord world domain dConf zone client
            (defaultAllowedCountries (AllowedCountries dConf)) (Hosts dConf)
            k in
        (outcomeW r,
         (EvMainLog (LogProcessingDomain domain) :: EvZonesGet domain true
            :: EvMainLog (LogZone (ns1zone.Zone zone)) :: traceW r
            ++ match outcomeW r with
               | Ok _ => [EvStdout ""]
               | Panic _ => []
               end)%list,
         snd r)
    end.
Proof.
  intros client. unfold processDomain, bindW, logW, emitW, derefW, liftM.
  cbn [configureNS1Client NS1Config.Client deref outcome trace ret fst snd
       map app]. fold client.
  destruct (ns1rest.Zones_Get client domain true) as [zone|ze];
    [|reflexivity].
  cbv zeta. unfold Println, emitW.
  destruct (hostLoop NewRecord world domain dConf zone client
              (defaultAllowedCountries (AllowedCountries dConf))
              (Hosts dConf) k) as [[[[]|msg] t] k']; simpl.
  - reflexivity.
  - rewrite app_nil_r. reflexivity.
Qed.

(** Where the events of the engine in a run of [processDomain] come
    from. *)
Lemma processDomain_engine (domain : string) (dConf : DomainConfig)
    (k : nat) (e : Event) :
  In (EvEngine e) (traceW (processDomain NewRecord world domain dConf k)) ->
  exists client zone host ip,
    NS1Config.Client
      (configureNS1Client world (NS1 dConf) (Timeout dConf) (Debug dConf))
    = Some client
    /\ ns1rest.Zones_Get client domain true = inl zone
    /\ In host (Hosts dConf)
    /\ resolves world dConf host ip
    /\ In e (trace (processSubdomains NewRecord domain ip (ns1zone.Zone zone)
                      (ns1rest.Records client)
                      (defaultAllowedCountries (AllowedCountries dConf))
                      (Test dConf) (Delay dConf) (Subdomains host))).
Proof.
  rewrite processDomain_run. cbv zeta.
  set (client := ns1_NewClient world (NS1Config.APIKey (NS1 dConf))
                   (if (Timeout dConf <? 1)%Z then 30%Z else Timeout dConf)
                   (Debug dConf)).
  destruct (ns1rest.Zones_Get client domain true) as [zone|ze] eqn:HZ.
  - unfold traceW at 1. simpl.
    intros [HI|[HI|[HI|HI]]]; try discriminate HI.
    apply in_app_or in HI as [HI|HI].
    + apply hostLoop_engine in HI as (host & ip & Hh & HR & HI).
      exists client, zone, host, ip. auto.
    + destruct (outcomeW _); [destruct HI as [HI|[]]; discriminate HI|].
      destruct HI.
  - unfold traceW. simpl. intros [HI|[HI|[HI|[]]]]; discriminate HI.
Qed.

(** Where the events of the engine in a whole run come from: a loop over
    the subdomains of a configured host of a configured domain, with the
    client set up for the domain, the zone it returned, the domain's
    allowed countries or the default, and the domain's test flag and
    delay. *)
Lemma mainRun_engine (config : Config) (k : nat) (e : Event) :
  In (EvEngine e) (traceW (mainRun NewRecord world config k)) ->
  exists domain dConf client zone host ip,
    In (domain, dConf) config
    /\ NS1Config.Client
         (configureNS1Client world (NS1 dConf) (Timeout dConf) (Debug dConf))
       = Some client
    /\ ns1rest.Zones_Get client domain true = inl zone
    /\ In host (Hosts dConf)
    /\ resolves world dConf host ip
    /\ In e (trace (processSubdomains NewRecord domain ip (ns1zone.Zone zone)
                      (ns1rest.Records client)
                      (defaultAllowedCountries (AllowedCountries dConf))
                      (Test dConf) (Delay dConf) (Subdomains host))).
Proof.
  assert (HL : forall config k,
    In (EvEngine e) (traceW (domainLoop NewRecord world config k)) ->
    exists domain dConf client zone host ip,
      In (domain, dConf) config
      /\ NS1Config.Client
           (configureNS1Client world (NS1 dConf) (Timeout dConf)
              (Debug dConf))
         = Some client
      /\ ns1rest.Zones_Get client domain true = inl zone
      /\ In host (Hosts dConf)
      /\ resolves world dConf host ip
      /\ In e (trace (processSubdomains NewRecord domain ip
                        (ns1zone.Zone zone) (ns1rest.Records client)
                        (defaultAllowedCountries (AllowedCountries dConf))
                        (Test dConf) (Delay dConf) (Subdomains host)))).
  { clear config k. induction config as [|[domain dConf] rest IH]; intros k.
    - intros [].
    - simpl domainLoop. intros HI.
      apply In_bindW in HI as [HI|(a & _ & HI)].
      + apply processDomain_engine in HI
          as (client & zone & host & ip & H1 & H2 & H3 & H4 & H5).
        exists domain, dConf, client, zone, host, ip. simpl; auto 10.
      + apply IH in HI
          as (d & c & client & zone & host & ip
              & H0 & H1 & H2 & H3 & H4 & H5).
        exists d, c, client, zone, host, ip. simpl; auto 10. }
  unfold mainRun. intros HI.
  apply In_bindW in HI as [HI|(a & _ & HI)]; [now apply HL in HI|].
  apply In_bindW in HI as [[HI|[]]|(a' & _ & [HI|[]])]; discriminate HI.
Qed.

(** [getIP] does not write the closing line of the run. *)
Lemma getIP_no_completed (host : Host) (timeout : Z) (k : nat) :
  ~ In (EvMainLog LogCompleted) (traceW (getIP world host timeout k)).
Proof.
  unfold getIP.
  destruct (String.eqb (Method host) "LinodeAPI").
  - rewrite linodeAPICheck_run. intros [H|[H|[]]]; discriminate H.
  - destruct (String.eqb (Method host) "external").
    + destruct (externalWAN_run timeout k) as (url & _ & ->).
      intros [H|[H|[]]]; discriminate H.
    + intros [].
Qed.

Lemma processHost_invariant (domain : string) (dConf : DomainConfig)
    (zone : ns1zone.Zone_) (client : ns1rest.Client)
    (allowed : list string) (host : Host) (k : nat) :
  loopInvariant
    (processHost NewRecord world domain dConf zone client allowed host k).
Proof.
  destruct (processHost_run domain dConf zone client allowed host k)
    as (r & t & k' & HG & _ & HP & ->).
  pose proof (getIP_no_completed (configuredHost world dConf host)
                (Timeout dConf) k) as HN.
  rewrite HG in HN. unfold traceW in HN. simpl in HN.
  destruct r as [[ip [e|]]|msg]; split; unfold outcomeW, traceW; simpl.
  - discriminate.
  - intros [H|H]; [discriminate H|].
    apply in_app_or in H as [H|[H|[]]]; [contradiction|discriminate H].
  - apply (processSubdomains_outcome NewRecord).
  - intros [H|H]; [discriminate H|].
    apply in_app_or in H as [H|H]; [contradiction|].
    apply in_app_or in H as [H|H].
    + apply in_map_iff in H as (e' & He & _). discriminate He.
    + destruct (outcome _); [destruct H as [H|[]]; discriminate H|].
      destruct H.
  - intros msg' H. inversion H; subst msg'. right. now apply HP.
  - intros [H|H]; [discriminate H|contradiction].
Qed.

Lemma hostLoop_invariant (domain : string) (dConf : DomainConfig)
    (zone : ns1zone.Zone_) (client : ns1rest.Client)
    (allowed : list string) (hosts : list Host) (k : nat) :
  loopInvariant
    (hostLoop NewRecord world domain dConf zone client allowed hosts k).
Proof.
  revert k; induction hosts as [|host rest IH]; intros k.
  - split; [discriminate|intros []].
  - simpl hostLoop. rewrite bindW_eq.
    destruct (processHost_invariant domain dConf zone client allowed host k)
      as [H1 H2].
    destruct (processHost NewRecord world domain dConf zone client allowed
                host k) as [[[a|msg'] t] k'].
    + destruct (IH k') as [I1 I2]. split.
      * exact I1.
      * unfold traceW at 1. simpl. intros H.
        apply in_app_or in H as [H|H]; [now apply H2|now apply I2].
    + split; [exact H1|exact H2].
Qed.

Lemma processDomain_invariant (domain : string) (dConf : DomainConfig)
    (k : nat) :
  loopInvariant (processDomain NewRecord world domain dConf k).
Proof.
  rewrite processDomain_run. cbv zeta.
  destruct (ns1rest.Zones_Get _ domain true) as [zone|ze].
  - match goal with
    | |- context [hostLoop ?a ?b ?c ?d ?e ?f ?g ?h ?i] =>
        destruct (hostLoop_invariant c d e f g h i) as [H1 H2]
    end.
    split; unfold outcomeW at 1, traceW at 1; simpl.
    + exact H1.
    + intros [H|[H|[H|H]]]; try discriminate H.
      apply in_app_or in H as [H|H]; [now apply H2|].
      destruct (outcomeW _); [destruct H as [H|[]]; discriminate H|].
      destruct H.
  - split; [discriminate|].
    unfold traceW. simpl. intros [H|[H|[H|[]]]]; discriminate H.
Qed.

Lemma domainLoop_invariant (config : Config) (k : nat) :
  loopInvariant (domainLoop NewRecord world config k).
Proof.
  revert k; induction config as [|[domain dConf] rest IH]; intros k.
  - split; [discriminate|intros []].
  - simpl domainLoop. rewrite bindW_eq.
    destruct (processDomain_invariant domain dConf k) as [H1 H2].
    destruct (processDomain NewRecord world domain dConf k)
      as [[[a|msg'] t] k'].
    + destruct (IH k') as [I1 I2]. split.
      * exact I1.
      * unfold traceW at 1. simpl. intros H.
        apply in_app_or in H as [H|H]; [now apply H2|now apply I2].
    + split; [exact H1|exact H2].
Qed.

(** The run of [mainRun], in terms of the run of the loop over the
    domains. *)
Lemma mainRun_run (config : Config) (k : nat) :
  mainRun NewRecord world config k
  = match domainLoop NewRecord world config k with
    | (Ok _, t, k') =>
        (Ok tt, (t ++ [EvMainLog LogCompleted; EvStdout ""])%list, k')
    | (Panic msg, t, k') => (Panic msg, t, k')
    end.
Proof.
  unfold mainRun. rewrite bindW_eq.
  destruct (domainLoop NewRecord world config k) as [[[a|msg] t] k'];
    reflexivity.
Qed.

(** When every record the NS1 clients find has a first answer that is
    not nil, and every Linode instance a first address that is not nil,
    the loops return normally. *)
Lemma domainLoop_returns (config : Config) (k : nat) :
  (forall apiKey timeout debug z d record,
     ns1.Records_Get
       (ns1rest.Records (ns1_NewClient world apiKey timeout debug)) z d "A"
     = inl record ->
     exists a more, Answers record = Some a :: more) ->
  (forall apiKey timeout debug hostID inst rest,
     linodego.GetInstance (linodego_NewClient world apiKey timeout debug)
       hostID
     = inl inst ->
     linodego.IPv4 inst <> None :: rest) ->
  outcomeW (domainLoop NewRecord world config k) = Ok tt.
Proof.
  intros HA HL.
  assert (HH : forall domain dConf zone apiKey timeout debug allowed hosts k,
    outcomeW (hostLoop NewRecord world domain dConf zone
                (ns1_NewClient world apiKey timeout debug) allowed hosts k)
    = Ok tt).
  { intros domain dConf zone apiKey timeout debug allowed hosts.
    induction hosts as [|host rest IH]; intros k0; [reflexivity|].
    simpl hostLoop. rewrite bindW_eq.
    destruct (processHost_run domain dConf zone
                (ns1_NewClient world apiKey timeout debug) allowed host k0)
      as (r & t & k' & HG & _ & _ & ->).
    destruct (getIP_returns (configuredHost world dConf host)
                (Timeout dConf) k0) as (ip & err & t0 & k0' & HG').
    { unfold configuredHost.
      destruct (String.eqb (Method host) "LinodeAPI") eqn:HM.
      - intros _ inst more. simpl. apply HL.
      - intros HM'. apply String.eqb_neq in HM. contradiction. }
    rewrite HG in HG'. inversion HG'; subst r t0 k0'.
    destruct err as [e|]; [apply IH|].
    cbv zeta.
    rewrite (proj2 (processSubdomains_outcome NewRecord domain ip
                      (ns1zone.Zone zone)
                      (ns1rest.Records
                         (ns1_NewClient world apiKey timeout debug))
                      allowed (Test dConf) (Delay dConf) (Subdomains host))
               (HA apiKey timeout debug)).
    apply IH. }
  revert k; induction config as [|[domain dConf] rest IH]; intros k;
    [reflexivity|].
  simpl domainLoop. rewrite bindW_eq, processDomain_run. cbv zeta.
  destruct (ns1rest.Zones_Get _ domain true) as [zone|ze]; [|apply IH].
  match goal with
  | |- context [hostLoop ?a ?b ?c ?d ?e
                  (ns1_NewClient world ?f ?g ?h) ?i ?j ?l] =>
      pose proof (HH c d e f g h i j l) as HO;
      destruct (hostLoop a b c d e (ns1_NewClient world f g h) i j l)
        as [[r t] k']
  end.
  unfold outcomeW in HO. simpl in HO. subst r. apply IH.
Qed.

End MainFacts.

(** ** Properties of the outer layer *)

Section MainProperties.

Variable NewRecord : string -> string -> string -> Record_.
Variable world : World.

(** X11. [getIP] makes no call to NS1 and at most one remote call, and it
    panics in one case only: the method is LinodeAPI and the API returned
    an instance whose first address is a nil pointer, which it reads
    through. In every other case it returns an IP and an error value. A
    method other than LinodeAPI and external is an error that names the
    method, reached without any call, any log line or any random draw. *)
Theorem getIP_outcome (host : Host) (timeout : Z) (k : nat) :
  (exists r t k',
     getIP world host timeout k = (r, t, k')
     /\ filter isEngine t = []
     /\ List.length (filter isRemote t) <= 1
     /\ (forall msg,
           r = Panic msg ->
           msg = nilDereference
           /\ Method host = "LinodeAPI"
           /\ exists inst rest,
                linodego.GetInstance (Client host)
                  (fst (Atoi world (HostKey host)))
                = inl inst
                /\ linodego.IPv4 inst = None :: rest))
  /\ ((Method host = "LinodeAPI" ->
       forall inst rest,
         linodego.GetInstance (Client host) (fst (Atoi world (HostKey host)))
         = inl inst ->
         linodego.IPv4 inst <> None :: rest) ->
      exists ip err t k',
        getIP world host timeout k = (Ok (ip, err), t, k'))
  /\ (Method host <> "LinodeAPI" -> Method host <> "external" ->
      getIP world host timeout k
      = (Ok ("", Some ("unknown method: " ++ Method host)), [], k)).
Proof.
  split; [|split].
  - unfold getIP.
    destruct (String.eqb_spec (Method host) "LinodeAPI") as [HM|HM].
    + rewrite linodeAPICheck_run.
      destruct (linodego.GetInstance (Client host) _) as [inst|e] eqn:HI;
        [destruct (linodego.IPv4 inst) as [|[ip0|] more] eqn:HN|];
        do 3 eexists; (split; [reflexivity|]); (split; [reflexivity|]);
        (split; [simpl; auto|]); intros msg H; try discriminate H.
      inversion H. split; [reflexivity|]. split; [exact HM|].
      exists inst, more. auto.
    + destruct (String.eqb (Method host) "external").
      * destruct (externalWAN_run world timeout k) as (url & _ & ->).
        do 3 eexists. split; [reflexivity|]. split; [reflexivity|].
        split; [simpl; auto|]. discriminate.
      * do 3 eexists. split; [reflexivity|]. split; [reflexivity|].
        split; [simpl; auto|]. discriminate.
  - apply getIP_returns.
  - intros H1 H2. unfold getIP.
    destruct (String.eqb_spec (Method host) "LinodeAPI"); [contradiction|].
    destruct (String.eqb_spec (Method host) "external"); [contradiction|].
    reflexivity.
Qed.

(** X12. [linodeAPICheck] asks the Linode API for exactly one instance,
    the one numbered by what [Atoi] makes of the host key, whether or not
    [Atoi] reported an error. When the API returns an instance, it returns
    the instance's first IPv4 address if there is one, fails with an error
    of its own if the instance has no address, and panics on reading
    through the first address if that is a nil pointer; an API failure is
    an error with its own message. *)
Theorem linodeAPICheck_first_address (h : Host) (k : nat) :
  let hostID := fst (Atoi world (HostKey h)) in
  exists r,
    linodeAPICheck world h k
    = (r, [EvMainLog LogCheckingLinode; EvGetInstance hostID], k)
    /\ (forall inst first more,
          linodego.GetInstance (Client h) hostID = inl inst ->
          linodego.IPv4 inst = Some first :: more ->
          r = Ok (first, None))
    /\ (forall inst,
          linodego.GetInstance (Client h) hostID = inl inst ->
          linodego.IPv4 inst = [] ->
          r = Ok ("", Some "no IPv4 addresses on host"))
    /\ (forall inst more,
          linodego.GetInstance (Client h) hostID = inl inst ->
          linodego.IPv4 inst = None :: more ->
          r = Panic nilDereference)
    /\ (forall e,
          linodego.GetInstance (Client h) hostID = inr e ->
          r = Ok ("", Some ("linode API returned error " ++ e))).
Proof.
  intros hostID. rewrite linodeAPICheck_run. fold hostID.
  destruct (linodego.GetInstance (Client h) hostID) as [inst|e];
    [destruct (linodego.IPv4 inst) as [|[first|] more] eqn:HI|];
    eexists; (split; [reflexivity|]);
    repeat split; intros;
    repeat match goal with
           | H : inl _ = inl _ |- _ => inversion H; subst; clear H
           | H : inr _ = inr _ |- _ => inversion H; subst; clear H
           | H : linodego.IPv4 ?i = _, H' : linodego.IPv4 ?i = _ |- _ =>
               rewrite H in H'; inversion H'; subst; clear H'
           end;
    try discriminate; reflexivity.
Qed.

(** X13. [externalWAN] makes exactly one request, to one of its three
    services, with the timeout it was given (a timeout below 1 is not
    replaced by 30 here), and uses up one random draw. It never panics.
    It succeeds exactly when the request succeeds with status 200 and a
    body that decodes, and then returns the decoded IP trimmed; a failed
    request, another status and an undecodable body are errors, the second
    naming the status. *)
Theorem externalWAN_one_request (timeout : Z) (k : nat) :
  exists url ip err,
    In url resources
    /\ externalWAN world timeout k
       = (Ok (ip, err),
          [EvMainLog (LogCheckingExternal (urlHost url));
           EvHttpGet url timeout],
          S k)
    /\ (forall resp raw,
          http_Get world url timeout = inl resp ->
          http.StatusCode resp = 200%Z ->
          decodeIP world (http.Body resp) = inl raw ->
          ip = TrimSpace world raw /\ err = None)
    /\ (forall resp,
          http_Get world url timeout = inl resp ->
          http.StatusCode resp <> 200%Z ->
          ip = ""
          /\ err = Some ("external service returned status: "
                           ++ itoaZ (http.StatusCode resp)))
    /\ (forall resp e,
          http_Get world url timeout = inl resp ->
          http.StatusCode resp = 200%Z ->
          decodeIP world (http.Body resp) = inr e ->
          ip = "" /\ err = Some ("failed to decode response: " ++ e))
    /\ (forall e,
          http_Get world url timeout = inr e ->
          ip = "" /\ err = Some ("failed to get external IP: " ++ e)).
Proof.
  destruct (externalWAN_run world timeout k) as (url & HI & ->).
  exists url.
  destruct (http_Get world url timeout) as [resp|e];
    [destruct (Z.eqb_spec (http.StatusCode resp) 200) as [HS|HS];
     [destruct (decodeIP world (http.Body resp)) as [raw|de] eqn:HD|]|];
    do 2 eexists; (split; [exact HI|]); (split; [reflexivity|]);
    repeat split; intros; congruence.
Qed.

(** X14. A configured timeout below one second means thirty seconds for
    the two clients: [configureNS1Client] and [configureLinodeClient] with
    a timeout of zero or less build exactly what they build with a timeout
    of 30, a timeout of one or more is used as it is, and neither touches
    anything but the client: the API key, and the host's name, method,
    keys and subdomains stay as configured. *)
Theorem configure_timeout_default
    (n : NS1Config.t) (h : Host) (timeout : Z) (debug : bool) :
  ((timeout < 1)%Z ->
     configureNS1Client world n timeout debug
     = configureNS1Client world n 30 debug
     /\ configureLinodeClient world h timeout debug
        = configureLinodeClient world h 30 debug)
  /\ ((1 <= timeout)%Z ->
        NS1Config.Client (configureNS1Client world n timeout debug)
        = Some (ns1_NewClient world (NS1Config.APIKey n) timeout debug)
        /\ Client (configureLinodeClient world h timeout debug)
           = linodego_NewClient world (APIKey h) timeout debug)
  /\ NS1Config.APIKey (configureNS1Client world n timeout debug)
     = NS1Config.APIKey n
  /\ (let h' := configureLinodeClient world h timeout debug in
      Name h' = Name h /\ Method h' = Method h /\ APIKey h' = APIKey h
      /\ HostKey h' = HostKey h /\ Subdomains h' = Subdomains h).
Proof.
  unfold configureNS1Client, configureLinodeClient.
  split; [|split; [|split]].
  - intros H. apply Z.ltb_lt in H. rewrite H. split; reflexivity.
  - intros H. apply Z.ltb_ge in H. rewrite H. split; reflexivity.
  - reflexivity.
  - simpl. auto.
Qed.

(** X15. A host whose IP cannot be resolved is skipped: [processHost]
    then returns normally, reports the failure with the host's name and
    the cause, and makes no call to NS1 for any of the host's subdomains:
    no lookup, no write, no delay. *)
Theorem processHost_skips_on_ip_failure
    (domain : string) (dConf : DomainConfig) (zone : ns1zone.Zone_)
    (client : ns1rest.Client) (allowed : list string) (host : Host)
    (k k' : nat) (ip : string) (e : error) (t : list MainEvent) :
  getIP world
    (if String.eqb (Method host) "LinodeAPI" then
       configureLinodeClient world host (Timeout dConf) (Debug dConf)
     else host)
    (Timeout dConf) k
  = (Ok (ip, Some e), t, k') ->
  processHost NewRecord world domain dConf zone client allowed host k
  = (Ok tt,
     (EvMainLog (LogCheckingHost (Name host)) :: t
        ++ [EvMainLog (LogIPFailed (Name host) e)])%list,
     k')
  /\ filter isEngine
       (traceW (processHost NewRecord world domain dConf zone client allowed
                  host k))
     = [].
Proof.
  intros HG.
  destruct (processHost_run NewRecord world domain dConf zone client allowed
              host k) as (r & t' & k'' & HG' & HE & _ & HP).
  unfold configuredHost in HG'. rewrite HG in HG'.
  inversion HG'; subst r t' k''.
  rewrite HP. split; [reflexivity|].
  unfold traceW. simpl. rewrite filter_app. simpl. rewrite app_nil_r.
  clear HG HG' HP. induction t as [|ev t IH]; [reflexivity|].
  simpl in HE. apply andb_true_iff in HE as [He Ht].
  simpl. destruct (isEngine ev); [discriminate He|]. auto.
Qed.

(** X16. A domain whose zone cannot be loaded is skipped: [processDomain]
    then returns normally after three events, the line announcing the
    domain, the zone lookup and the line reporting the failure with the
    domain and the cause; no host's IP is resolved, nothing is asked of
    the records service and no random draw is used. *)
Theorem processDomain_skips_on_zone_failure
    (domain : string) (dConf : DomainConfig) (k : nat)
    (client : ns1rest.Client) (e : error) :
  NS1Config.Client
    (configureNS1Client world (NS1 dConf) (Timeout dConf) (Debug dConf))
  = Some client ->
  ns1rest.Zones_Get client domain true = inr e ->
  processDomain NewRecord world domain dConf k
  = (Ok tt,
     [EvMainLog (LogProcessingDomain domain); EvZonesGet domain true;
      EvMainLog (LogZoneFailed domain e)],
     k).
Proof.
  intros HC HZ. rewrite processDomain_run. cbv zeta.
  simpl in HC. inversion HC; subst client. rewrite HZ. reflexivity.
Qed.

(** X17. Every record lookup of a whole run is for a configured name: it
    asks for the "A" record of the full name of a subdomain label of a
    host of a domain of the configuration, in the zone that domain's zone
    lookup returned. *)
Theorem mainRun_lookups_are_configured
    (config : Config) (k : nat) (z d ty : string) :
  In (EvEngine (EvGet z d ty)) (traceW (mainRun NewRecord world config k)) ->
  exists domain dConf client zone host label,
    In (domain, dConf) config
    /\ In host (Hosts dConf)
    /\ In label (Subdomains host)
    /\ NS1Config.Client
         (configureNS1Client world (NS1 dConf) (Timeout dConf) (Debug dConf))
       = Some client
    /\ ns1rest.Zones_Get client domain true = inl zone
    /\ z = ns1zone.Zone zone
    /\ d = fullSubdomain domain label
    /\ ty = "A".
Proof.
  intros HI.
  apply mainRun_engine in HI
    as (domain & dConf & client & zone & host & ip
        & H0 & H1 & H2 & H3 & _ & H4).
  apply processSubdomains_event in H4 as [H4|(label & Hl & H4)];
    [discriminate H4|].
  apply processSubdomain_get_event in H4 as (-> & -> & ->).
  exists domain, dConf, client, zone, host, label. auto 10.
Qed.

(** X18. The dry run of a whole configuration: when every domain has its
    test flag set, the run makes no create and no update call at all. *)
Theorem mainRun_test_mode_writes_nothing (config : Config) (k : nat) :
  (forall domain dConf, In (domain, dConf) config -> Test dConf = true) ->
  filter isWrite (traceW (mainRun NewRecord world config k)) = [].
Proof.
  intros HT.
  assert (HA : forall ev,
             In ev (traceW (mainRun NewRecord world config k)) ->
             isWrite ev = false).
  { intros [e| | | | |] HI; try reflexivity.
    apply mainRun_engine in HI
      as (domain & dConf & client & zone & host & ip
          & H0 & _ & _ & _ & _ & H4).
    rewrite (HT domain dConf H0) in H4.
    apply processSubdomains_event in H4 as [->|(label & _ & H4)];
      [reflexivity|].
    simpl. now apply processSubdomain_test_no_writes in H4. }
  induction (traceW (mainRun NewRecord world config k)) as [|ev t IH];
    [reflexivity|].
  simpl. rewrite (HA ev (or_introl eq_refl)). apply IH.
  intros ev' HI. apply HA. now right.
Qed.

(** X19. Every record a whole run creates is the record of a configured
    name, written for the address resolved for its host and with the
    countries of its domain: it is the new "A" record for the full name of
    a subdomain label of a configured host, in the zone the domain's zone
    lookup returned, with one answer whose only rdata is an address
    [getIP] resolved for that host, [up] true and the countries configured
    for that domain, or US and CA when the domain configures none; the
    country list is never empty. *)
Theorem mainRun_creates_carry_countries
    (config : Config) (k : nat) (r : Record_) :
  In (EvEngine (EvCreate r)) (traceW (mainRun NewRecord world config k)) ->
  exists domain dConf client zone host label ip,
    In (domain, dConf) config
    /\ In host (Hosts dConf)
    /\ In label (Subdomains host)
    /\ NS1Config.Client
         (configureNS1Client world (NS1 dConf) (Timeout dConf) (Debug dConf))
       = Some client
    /\ ns1rest.Zones_Get client domain true = inl zone
    /\ resolves world dConf host ip
    /\ defaultAllowedCountries (AllowedCountries dConf) <> []
    /\ (AllowedCountries dConf = [] ->
        defaultAllowedCountries (AllowedCountries dConf) = ["US"; "CA"])
    /\ r = setAnswers
             (NewRecord (ns1zone.Zone zone) (fullSubdomain domain label) "A")
             [Some {| Rdata := [ip];
                      Meta := Some
                        {| Up := IBool true;
                           Country :=
                             IStrings
                               (defaultAllowedCountries
                                  (AllowedCountries dConf)) |} |}].
Proof.
  intros HI.
  apply mainRun_engine in HI
    as (domain & dConf & client & zone & host & ip
        & H0 & H1 & H2 & H3 & HR & H4).
  apply processSubdomains_event in H4 as [H4|(label & Hl & H4)];
    [discriminate H4|].
  apply processSubdomain_created in H4. subst r.
  exists domain, dConf, client, zone, host, label, ip.
  pose proof (defaultAllowedCountries_nonempty (AllowedCountries dConf)) as HNE.
  repeat (split; [assumption|]).
  split; [intros ->; reflexivity|].
  destruct (defaultAllowedCountries (AllowedCountries dConf)) as [|c cs];
    [contradiction|]. reflexivity.
Qed.

(** X20. When every record the NS1 clients of the world find has a first
    answer and it is not a nil pointer, and no Linode instance of the
    world has a nil pointer as its first address, a whole run returns
    normally, whatever else fails on the way (zone lookups, IP resolution,
    lookups, writes), and the last two things it does are to log that the
    update completed and to print an empty line. *)
Theorem mainRun_completes (config : Config) (k : nat) :
  (forall apiKey timeout debug z d record,
     ns1.Records_Get
       (ns1rest.Records (ns1_NewClient world apiKey timeout debug)) z d "A"
     = inl record ->
     exists a more, Answers record = Some a :: more) ->
  (forall apiKey timeout debug hostID inst rest,
     linodego.GetInstance (linodego_NewClient world apiKey timeout debug)
       hostID
     = inl inst ->
     linodego.IPv4 inst <> None :: rest) ->
  exists t k',
    mainRun NewRecord world config k
    = (Ok tt, (t ++ [EvMainLog LogCompleted; EvStdout ""])%list, k').
Proof.
  intros HA HL. rewrite mainRun_run.
  pose proof (domainLoop_returns NewRecord world config k HA HL) as HO.
  destruct (domainLoop NewRecord world config k) as [[r t] k'].
  unfold outcomeW in HO. simpl in HO. subst r. eauto.
Qed.

(** X21. A whole run can panic in two ways only, on the index of a record
    without answers and on reading through a nil pointer (a nil first
    answer, a nil first address), and a panic ends the run on the spot: a
    run that panics never logs that the update completed, while a run
    that returns normally always does. *)
Theorem mainRun_panics (config : Config) (k : nat) :
  (forall msg,
     outcomeW (mainRun NewRecord world config k) = Panic msg ->
     (msg = "runtime error: index out of range [0] with length 0"
      \/ msg = nilDereference)
     /\ ~ In (EvMainLog LogCompleted)
          (traceW (mainRun NewRecord world config k)))
  /\ (outcomeW (mainRun NewRecord world config k) = Ok tt ->
      In (EvMainLog LogCompleted)
        (traceW (mainRun NewRecord world config k))).
Proof.
  rewrite mainRun_run.
  destruct (domainLoop_invariant NewRecord world config k) as [H1 H2].
  destruct (domainLoop NewRecord world config k) as [[[a|msg'] t] k'].
  - split; [discriminate|]. intros _. unfold traceW. simpl.
    apply in_or_app. right. simpl; auto.
  - split; [|discriminate]. intros msg H. split.
    + now apply H1.
    + exact H2.
Qed.

End MainProperties.

(** ** More concrete runs *)

Lemma sliceFromInterface_first_bad_item_witness :
  sliceFromInterface (ISlice [IString "US"; IFloat64 3])
  = ([], Some "element at index 1 is not a string (type: float64)").
Proof.
  refine (proj1 (sliceFromInterface_first_bad_item ["US"] (IFloat64 3) [] _)).
  intros s. discriminate.
Defined.

Lemma ip_change_writes_empty_countries_witness :
  mutatingCalls
    (trace (homeRun
              (clientFinding
                 (homeRecord
                    [{| Rdata := ["198.51.100.1"];
                        Meta := Some {| Up := IBool true;
                                        Country :=
                                          ISlice [IString "US"; IString "CA"]
                                     |} |}]))
              ["US"; "CA"] false))
  = [EvUpdate
       (homeRecord
          [{| Rdata := ["203.0.113.5"];
              Meta := Some {| Up := IBool true; Country := IStrings [] |} |}])].
Proof.
  refine (proj1
            (ip_change_writes_empty_countries plainRecord "home.example.com"
               "203.0.113.5" "example.com"
               (clientFinding
                  (homeRecord
                     [{| Rdata := ["198.51.100.1"];
                         Meta := Some {| Up := IBool true;
                                         Country :=
                                           ISlice [IString "US"; IString "CA"]
                                      |} |}]))
               ["US"; "CA"]
               (homeRecord
                  [{| Rdata := ["198.51.100.1"];
                      Meta := Some {| Up := IBool true;
                                      Country :=
                                        ISlice [IString "US"; IString "CA"]
                                   |} |}])
               _ [] eq_refl eq_refl eq_refl _)).
  intros more H. discriminate H.
Defined.

Lemma write_failure_is_logged_witness :
  outcome (homeRun (clientRefusing (inr ns1.ErrRecordMissing) "quota exceeded")
             ["US"; "CA"] false)
  = Ok tt
  /\ exists t,
       trace (homeRun
                (clientRefusing (inr ns1.ErrRecordMissing) "quota exceeded")
                ["US"; "CA"] false)
       = (t ++ [EvLog (LogCreateFailed "home.example.com"
                         "failed to create record: quota exceeded")])%list.
Proof.
  refine (proj1
            (write_failure_is_logged plainRecord "home.example.com"
               "203.0.113.5" "example.com"
               (clientRefusing (inr ns1.ErrRecordMissing) "quota exceeded")
               ["US"; "CA"] "quota exceeded" _ _)
            eq_refl);
    intros r; reflexivity.
Defined.

Lemma processSubdomains_stops_at_panic_witness :
  processSubdomains plainRecord "example.com" "203.0.113.5" "example.com"
    (clientFinding (homeRecord [])) ["US"; "CA"] false 2 ["home"; "www"]
  = (Panic "runtime error: index out of range [0] with length 0",
     [EvGet "example.com" "home.example.com" "A";
      EvLog (LogNoAnswers "203.0.113.5" "home.example.com")]).
Proof.
  exact (processSubdomains_stops_at_panic plainRecord "example.com"
           "203.0.113.5" "example.com" (clientFinding (homeRecord []))
           ["US"; "CA"] false 2 "home" ["www"] (homeRecord [])
           eq_refl eq_refl).
Defined.

Lemma processSubdomains_lookups_and_sleeps_witness :
  filter isGet
    (trace (processSubdomains plainRecord "example.com" "203.0.113.5"
              "example.com" (clientFailing ns1.ErrRecordMissing)
              ["US"; "CA"] true 2 ["@"; "www"]))
  = [EvGet "example.com" "example.com" "A";
     EvGet "example.com" "www.example.com" "A"]
  /\ filter isSleep
       (trace (processSubdomains plainRecord "example.com" "203.0.113.5"
                 "example.com" (clientFailing ns1.ErrRecordMissing)
                 ["US"; "CA"] true 2 ["@"; "www"]))
     = [EvSleep 2; EvSleep 2].
Proof.
  exact (processSubdomains_lookups_and_sleeps plainRecord "example.com"
           "203.0.113.5" "example.com" (clientFailing ns1.ErrRecordMissing)
           ["US"; "CA"] true 2 ["@"; "www"] eq_refl).
Defined.

Lemma processHost_skips_on_ip_failure_witness :
  processHost plainRecord freshWorld "example.com" (exampleDomain false [] [])
    {| ns1zone.Zone := "example.com" |}
    (serviceOver (clientFailing ns1.ErrRecordMissing)) ["US"; "CA"]
    (exampleHost "dns") 0
  = (Ok tt,
     [EvMainLog (LogCheckingHost "box");
      EvMainLog (LogIPFailed "box" "unknown method: dns")],
     0).
Proof.
  exact (proj1
           (processHost_skips_on_ip_failure plainRecord freshWorld
              "example.com" (exampleDomain false [] [])
              {| ns1zone.Zone := "example.com" |}
              (serviceOver (clientFailing ns1.ErrRecordMissing))
              ["US"; "CA"] (exampleHost "dns") 0 0 ""
              "unknown method: dns" [] eq_refl)).
Defined.

Lemma processDomain_skips_on_zone_failure_witness :
  processDomain plainRecord
    (exampleWorld okResponse [] (serviceWithoutZones "zone not found"))
    "example.com" (exampleDomain false [] [exampleHost "external"]) 0
  = (Ok tt,
     [EvMainLog (LogProcessingDomain "example.com");
      EvZonesGet "example.com" true;
      EvMainLog (LogZoneFailed "example.com" "zone not found")],
     0).
Proof.
  exact (processDomain_skips_on_zone_failure plainRecord
           (exampleWorld okResponse [] (serviceWithoutZones "zone not found"))
           "example.com" (exampleDomain false [] [exampleHost "external"]) 0
           (serviceWithoutZones "zone not found") "zone not found"
           eq_refl eq_refl).
Defined.

Lemma mainRun_lookups_are_configured_witness :
  exists domain dConf client zone host label,
    In (domain, dConf) (exampleConfig true)
    /\ In host (Hosts dConf)
    /\ In label (Subdomains host)
    /\ NS1Config.Client
         (configureNS1Client freshWorld (NS1 dConf) (Timeout dConf)
            (Debug dConf))
       = Some client
    /\ ns1rest.Zones_Get client domain true = inl zone
    /\ "example.com" = ns1zone.Zone zone
    /\ "www.example.com" = fullSubdomain domain label
    /\ "A" = "A".
Proof.
  apply (mainRun_lookups_are_configured plainRecord freshWorld
           (exampleConfig true) 0 "example.com" "www.example.com" "A").
  vm_compute. do 9 right. left. reflexivity.
Defined.

Lemma mainRun_test_mode_writes_nothing_witness :
  filter isWrite (traceW (mainRun plainRecord freshWorld (exampleConfig true) 0))
  = [].
Proof.
  apply (mainRun_test_mode_writes_nothing plainRecord freshWorld
           (exampleConfig true) 0).
  intros domain dConf [H|[]]. inversion H. reflexivity.
Defined.

Lemma mainRun_creates_carry_countries_witness :
  exists domain dConf client zone host label ip,
    In (domain, dConf) (exampleConfig false)
    /\ In host (Hosts dConf)
    /\ In label (Subdomains host)
    /\ NS1Config.Client
         (configureNS1Client freshWorld (NS1 dConf) (Timeout dConf)
            (Debug dConf))
       = Some client
    /\ ns1rest.Zones_Get client domain true = inl zone
    /\ resolves freshWorld dConf host ip
    /\ defaultAllowedCountries (AllowedCountries dConf) <> []
    /\ (AllowedCountries dConf = [] ->
        defaultAllowedCountries (AllowedCountries dConf) = ["US"; "CA"])
    /\ {| Zone := "example.com"; Domain := "www.example.com"; Type_ := "A";
          Answers :=
            [Some {| Rdata := ["203.0.113.5"];
                     Meta := Some {| Up := IBool true;
                                     Country := IStrings ["US"; "CA"] |} |}]
       |}
       = setAnswers
           (plainRecord (ns1zone.Zone zone) (fullSubdomain domain label) "A")
           [Some {| Rdata := [ip];
                    Meta := Some
                      {| Up := IBool true;
                         Country :=
                           IStrings
                             (defaultAllowedCountries
                                (AllowedCountries dConf)) |} |}].
Proof.
  apply (mainRun_creates_carry_countries plainRecord freshWorld
           (exampleConfig false) 0).
  vm_compute. do 11 right. left. reflexivity.
Defined.

Lemma mainRun_completes_witness :
  exists t k',
    mainRun plainRecord settledWorld linodeConfig 0
    = (Ok tt, (t ++ [EvMainLog LogCompleted; EvStdout ""])%list, k').
Proof.
  apply (mainRun_completes plainRecord settledWorld linodeConfig 0).
  - intros apiKey timeout debug z d record H.
    inversion H. do 2 eexists. reflexivity.
  - intros apiKey timeout debug hostID inst rest H.
    inversion H. discriminate.
Defined.

Lemma processAnswer_no_update_iff_witness :
  processAnswer
    (homeAnswer (IBool true) (ISlice [IString "US"; IString "CA"]))
    ["US"; "CA"]
  = (Ok (false, []), []).
Proof.
  exact (proj1
           (processAnswer_no_update_iff
              (homeAnswer (IBool true) (ISlice [IString "US"; IString "CA"]))
              ["US"; "CA"])
           eq_refl).
Defined.

Lemma processSubdomain_noop_iff_witness :
  outcome
    (homeRun
       (clientFinding
          (homeRecord
             [homeAnswer (IBool true) (ISlice [IString "US"; IString "CA"])]))
       ["US"; "CA"] false)
  = Ok tt
  /\ decision
       (trace
          (homeRun
             (clientFinding
                (homeRecord
                   [homeAnswer (IBool true)
                      (ISlice [IString "US"; IString "CA"])]))
             ["US"; "CA"] false))
     = NoOp.
Proof.
  apply (proj2
           (proj1
              (processSubdomain_noop_iff plainRecord "home.example.com"
                 "203.0.113.5" "example.com"
                 (clientFinding
                    (homeRecord
                       [homeAnswer (IBool true)
                          (ISlice [IString "US"; IString "CA"])]))
                 ["US"; "CA"] false))).
  exists (homeRecord
            [homeAnswer (IBool true) (ISlice [IString "US"; IString "CA"])]),
    (homeAnswer (IBool true) (ISlice [IString "US"; IString "CA"])),
    [], [].
  repeat split.
Defined.

Lemma getIP_outcome_witness :
  getIP freshWorld (exampleHost "dns") 0 0
  = (Ok ("", Some "unknown method: dns"), [], 0).
Proof.
  apply (proj2 (proj2 (getIP_outcome freshWorld (exampleHost "dns") 0 0)));
    discriminate.
Defined.

Lemma configure_timeout_default_witness :
  configureNS1Client freshWorld
    {| NS1Config.APIKey := "key"; NS1Config.Client := None |} 0 false
  = configureNS1Client freshWorld
      {| NS1Config.APIKey := "key"; NS1Config.Client := None |} 30 false
  /\ configureLinodeClient freshWorld (exampleHost "LinodeAPI") 0 false
     = configureLinodeClient freshWorld (exampleHost "LinodeAPI") 30 false.
Proof.
  exact (proj1
           (configure_timeout_default freshWorld
              {| NS1Config.APIKey := "key"; NS1Config.Client := None |}
              (exampleHost "LinodeAPI") 0 false)
           eq_refl).
Defined.

Lemma mainRun_panics_witness :
  outcomeW
    (mainRun plainRecord
       (exampleWorld okResponse [] (serviceOver (clientFinding (homeRecord []))))
       (exampleConfig false) 0)
  = Panic "runtime error: index out of range [0] with length 0"
  /\ ~ In (EvMainLog LogCompleted)
       (traceW
          (mainRun plainRecord
             (exampleWorld okResponse []
                (serviceOver (clientFinding (homeRecord []))))
             (exampleConfig false) 0)).
Proof.
  split; [reflexivity|].
  exact (proj2
           (proj1
              (mainRun_panics plainRecord
                 (exampleWorld okResponse []
                    (serviceOver (clientFinding (homeRecord []))))
                 (exampleConfig false) 0)
              "runtime error: index out of range [0] with length 0"
              eq_refl)).
Defined.

Lemma checkIP_first_rdata_only_witness :
  checkIP "203.0.113.5"
    {| Zone := "example.com"; Domain := "home.example.com"; Type_ := "A";
       Answers := [None] |}
  = (Panic nilDereference, []).
Proof.
  exact (proj1
           (checkIP_first_rdata_only "203.0.113.5"
              {| Zone := "example.com"; Domain := "home.example.com";
                 Type_ := "A"; Answers := [None] |})
           [] eq_refl).
Defined.

Lemma linodeAPICheck_first_address_witness :
  exists r,
    linodeAPICheck freshWorld
      {| Name := "box"; Method := "LinodeAPI"; APIKey := "token";
         HostKey := "42"; Subdomains := ["@"];
         Client :=
           {| linodego.GetInstance :=
                fun _ => inl {| linodego.IPv4 := [None] |} |} |}
      0
    = (r, [EvMainLog LogCheckingLinode; EvGetInstance 42], 0)
    /\ r = Panic nilDereference.
Proof.
  destruct (linodeAPICheck_first_address freshWorld
              {| Name := "box"; Method := "LinodeAPI"; APIKey := "token";
                 HostKey := "42"; Subdomains := ["@"];
                 Client :=
                   {| linodego.GetInstance :=
                        fun _ => inl {| linodego.IPv4 := [None] |} |} |}
              0)
    as (r & HR & _ & _ & HN & _).
  exists r. split; [exact HR|].
  exact (HN {| linodego.IPv4 := [None] |} [] eq_refl eq_refl).
Defined.
